(** * Matrix product chains (ephMPS/mps/mp.py): a shallow embedding

    The class [MatrixProduct] of [ephMPS/mps/mp.py] is embedded method by
    method.  Python integers are [Z], Python lists are [list] with Python's
    indexing rules written out, exceptions are values of [Py.exn], and
    methods that mutate [self] are state passing functions in a small
    state-and-exception monad.  float64 numbers are idealised as real
    numbers ([R]); complex128 numbers are pairs of reals.  The truncation
    rule of [compress], whose result depends on how the quotients are
    rounded, is embedded over IEEE 754 binary64 numbers as well ([F64]). *)

From Stdlib Require Import PrimFloat SpecFloat FloatOps FloatAxioms.
From Stdlib Require Import ZArith Reals Lra Lia List String.
From stdpp Require Import base list list_numbers.

Open Scope Z_scope.

(** ** Python: exceptions, [range], list indexing *)

Module Py.

Inductive exn : Type :=
| AssertionError
| ValueError (msg : string)
| IndexError
| TypeError
| ZeroDivisionError
| NotImplementedError.

(** The outcome of evaluating an expression: an exception or a value. *)
Definition result (A : Type) : Type := exn + A.

Definition ok {A} (a : A) : result A := inr a.
Definition raise {A} (e : exn) : result A := inl e.

Definition rbind {A B} (r : result A) (k : A -> result B) : result B :=
  match r with
  | inl e => inl e
  | inr a => k a
  end.

Definition raises {A} (r : result A) : Prop := exists e, r = inl e.

(** [assert b] *)
Definition assert (b : bool) : result unit :=
  if b then ok tt else raise AssertionError.

(** [range(start, stop, step)]; the source only uses steps [1] and [-1]
    (Python raises [ValueError] for step [0], which is the empty list here). *)
Definition range (start stop step : Z) : list Z :=
  let n :=
    if 0 <? step then (stop - start + step - 1) / step
    else if step <? 0 then (start - stop - step - 1) / (- step)
    else 0 in
  (fun k => start + k * step) <$> seqZ 0 n.

(** The position a Python index denotes in a list of length [len]:
    negative indices count from the end, anything else is out of range. *)
Definition norm_index (len : nat) (i : Z) : option nat :=
  if (0 <=? i) && (i <? Z.of_nat len) then Some (Z.to_nat i)
  else if (- Z.of_nat len <=? i) && (i <? 0) then Some (Z.to_nat (Z.of_nat len + i))
  else None.

(** [l[i]] *)
Definition getitem {A} (l : list A) (i : Z) : result A :=
  match norm_index (length l) i with
  | Some n =>
      match l !! n with
      | Some x => ok x
      | None => raise IndexError
      end
  | None => raise IndexError
  end.

(** [l[i] = v] *)
Definition setitem {A} (l : list A) (i : Z) (v : A) : result (list A) :=
  match norm_index (length l) i with
  | Some n => ok (<[n := v]> l)
  | None => raise IndexError
  end.

(** [l[:m]] for an integer [m] *)
Definition slice_to {A} (l : list A) (m : Z) : list A :=
  if m <? 0 then take (Z.to_nat (Z.of_nat (length l) + m)) l
  else take (Z.to_nat m) l.

(** [len(l)] *)
Definition len {A} (l : list A) : Z := Z.of_nat (length l).

(** [zip(l1, l2)] stops at the end of the shorter list. *)
Fixpoint zip {A B} (l1 : list A) (l2 : list B) : list (A * B) :=
  match l1, l2 with
  | a :: l1', b :: l2' => (a, b) :: zip l1' l2'
  | _, _ => []
  end.

(** [[f(x) for x in l]] where [f] may raise. *)
Fixpoint map_result {A B} (f : A -> result B) (l : list A) : result (list B) :=
  match l with
  | [] => ok []
  | x :: l' =>
      match f x with
      | inl e => inl e
      | inr y =>
          match map_result f l' with
          | inl e => inl e
          | inr ys => ok (y :: ys)
          end
      end
  end.

(** [int(x)] for a real [x]: rounding towards zero. *)
Definition int (x : R) : Z := if Rle_dec 0 x then Zfloor x else Zceil x.

End Py.

Notation "'let?' x ':=' r 'in' k" := (Py.rbind r (fun x => k))
  (at level 10, x pattern, r at level 100, k at level 200).

(** ** NumPy: arrays as a shape and row-major data

    Only the operations the class calls are modelled, with the shape checks
    NumPy performs and the exception it raises when they fail. *)

Module Np.

Record complex : Type := mkC { re : R; im : R }.

Definition C0 : complex := mkC 0 0.
Definition C1 : complex := mkC 1 0.
Definition Cadd (a b : complex) : complex := mkC (re a + re b) (im a + im b).
Definition Cmul (a b : complex) : complex :=
  mkC (re a * re b - im a * im b) (re a * im b + im a * re b).
Definition Cconj (a : complex) : complex := mkC (re a) (- im a).

Definition C_is_zero (a : complex) : bool :=
  if Req_dec_T (re a) 0 then (if Req_dec_T (im a) 0 then true else false) else false.

Inductive dtype : Type := float64 | complex128.

(** Type promotion of a binary operation. *)
Definition promote (a b : dtype) : dtype :=
  match a, b with
  | float64, float64 => float64
  | _, _ => complex128
  end.

Record ndarray : Type := mkArr {
  dt : dtype;
  shape : list nat;
  data : list complex
}.





Definition ndim (a : ndarray) : Z := Py.len (shape a).

(** [np.prod(shape)] *)
Definition prod (sh : list nat) : nat := fold_right Nat.mul 1%nat sh.

(** Rows of a row-major matrix with [rows] rows of [cols] entries. *)
Fixpoint chunks {A} (cols rows : nat) (l : list A) : list (list A) :=
  match rows with
  | O => []
  | S r => take cols l :: chunks cols r (drop cols l)
  end.

(** Columns of a matrix given by its rows. *)
Fixpoint columns (cols : nat) (rows : list (list complex)) : list (list complex) :=
  match cols with
  | O => []
  | S c => map (fun r => nth 0 r C0) rows :: columns c (map (drop 1) rows)
  end.

(** Transpose of a [rows] x [cols] row-major matrix. *)
Definition transpose2 (rows cols : nat) (l : list complex) : list complex :=
  concat (columns cols (chunks cols rows l)).

Definition inner (x y : list complex) : complex :=
  fold_right Cadd C0 (zip_with Cmul x y).

(** Product of an [m] x [k] matrix and a [k] x [n] matrix, both row-major. *)
Definition matmul (m k n : nat) (a b : list complex) : list complex :=
  let cols_b := columns n (chunks n k b) in
  concat (map (fun row => map (inner row) cols_b) (chunks k m a)).

(** [np.eye(1, 1)] *)
Definition eye11 : ndarray := mkArr float64 [1%nat; 1%nat] [C1].

(** [np.tensordot(a, b, 1)]: the last axis of [a] against the first of [b]. *)
Definition tensordot1 (a b : ndarray) : Py.result ndarray :=
  match rev (shape a), shape b with
  | ka :: ra, kb :: rb =>
      if Nat.eqb ka kb then
        Py.ok (mkArr (promote (dt a) (dt b)) (rev ra ++ rb)
                 (matmul (prod (rev ra)) ka (prod rb) (data a) (data b)))
      else Py.raise (Py.ValueError "shape-mismatch for sum")
  | _, _ => Py.raise Py.IndexError
  end.

(** The check of [np.tensordot(a, b, ([0..n-1], [0..n-1]))]: axis [k] of [a]
    against axis [k] of [b], in order. *)
Fixpoint front_axes_check (n : nat) (sa sb : list nat) : Py.result unit :=
  match n with
  | O => Py.ok tt
  | S n' =>
      match sa, sb with
      | x :: sa', y :: sb' =>
          if Nat.eqb x y then front_axes_check n' sa' sb'
          else Py.raise (Py.ValueError "shape-mismatch for sum")
      | _, _ => Py.raise Py.IndexError
      end
  end.

(** [np.tensordot(a, b, ([0..n-1], [0..n-1]))]: the first [n] axes of [a]
    against the first [n] axes of [b]. *)
Definition tensordot_front (n : nat) (a b : ndarray) : Py.result ndarray :=
  let? _ := front_axes_check n (shape a) (shape b) in
  let n2 := prod (take n (shape a)) in
  let olda := drop n (shape a) in
  let oldb := drop n (shape b) in
  let at_ := transpose2 n2 (prod olda) (data a) in
  Py.ok (mkArr (promote (dt a) (dt b)) (olda ++ oldb)
           (matmul (prod olda) n2 (prod oldb) at_ (data b))).

(** [a.T]: all axes reversed. *)
Fixpoint reverse_axes (sh : list nat) (l : list complex) : list complex :=
  match sh with
  | [] => l
  | s0 :: rest =>
      let p := prod rest in
      concat (columns p (map (reverse_axes rest) (chunks p s0 l)))
  end.

Definition T (a : ndarray) : ndarray :=
  mkArr (dt a) (rev (shape a)) (reverse_axes (shape a) (data a)).

(** [a[0, 0]] *)
Definition getitem00 (a : ndarray) : Py.result ndarray :=
  match shape a with
  | S _ :: S _ :: rest => Py.ok (mkArr (dt a) rest (take (prod rest) (data a)))
  | _ => Py.raise Py.IndexError
  end.


(** [np.float64(a)] and [np.complex128(a)]: a cast to float64 drops the
    imaginary parts. *)
Definition astype (d : dtype) (a : ndarray) : ndarray :=
  match d with
  | float64 => mkArr float64 (shape a) (map (fun x => mkC (re x) 0) (data a))
  | complex128 => mkArr complex128 (shape a) (data a)
  end.

(** [a.conj()] *)
Definition conj (a : ndarray) : ndarray :=
  mkArr (dt a) (shape a) (map Cconj (data a)).

(** [a.any()] *)
Definition any (a : ndarray) : bool :=
  existsb (fun x => negb (C_is_zero x)) (data a).

(** [np.reshape(a, newshape)] with explicit non-negative sizes. *)
Definition reshape (a : ndarray) (newshape : list nat) : Py.result ndarray :=
  if Nat.eqb (prod newshape) (length (data a))
  then Py.ok (mkArr (dt a) newshape (data a))
  else Py.raise (Py.ValueError "cannot reshape array").

(** The number of positions the slice [:m] keeps of an axis of size [s]. *)
Definition slice_len (s : nat) (m : Z) : nat :=
  if m <? 0 then Z.to_nat (Z.of_nat s + m) else Nat.min (Z.to_nat m) s.

(** [a[:, :m]] *)
Definition slice_cols (a : ndarray) (m : Z) : Py.result ndarray :=
  match shape a with
  | s0 :: s1 :: rest =>
      let k := slice_len s1 m in
      Py.ok (mkArr (dt a) (s0 :: k :: rest)
               (concat (map (take (k * prod rest)) (chunks (s1 * prod rest) s0 (data a)))))
  | _ => Py.raise Py.IndexError
  end.

(** [a[:m, :]] *)
Definition slice_rows (a : ndarray) (m : Z) : Py.result ndarray :=
  match shape a with
  | s0 :: s1 :: rest =>
      let k := slice_len s0 m in
      Py.ok (mkArr (dt a) (k :: s1 :: rest) (take (k * (s1 * prod rest)) (data a)))
  | _ => Py.raise Py.IndexError
  end.

Definition Cscale (x : R) (z : complex) : complex := mkC (x * re z) (x * im z).

(** [np.einsum("ji, i -> ji", u, sigma)]: column [i] of [u] times [sigma[i]]. *)
Definition einsum_cols (u : ndarray) (sigma : list R) : Py.result ndarray :=
  match shape u with
  | [s0; s1] =>
      if Nat.eqb s1 (length sigma) then
        Py.ok (mkArr (dt u) [s0; s1]
                 (concat (map (zip_with Cscale sigma) (chunks s1 s0 (data u)))))
      else Py.raise (Py.ValueError "operands could not be broadcast together")
  | _ => Py.raise (Py.ValueError "einstein sum subscripts do not match the operand")
  end.

(** [np.einsum("i, ij -> ij", sigma, vt)]: row [i] of [vt] times [sigma[i]]. *)
Definition einsum_rows (sigma : list R) (vt : ndarray) : Py.result ndarray :=
  match shape vt with
  | [s0; s1] =>
      if Nat.eqb s0 (length sigma) then
        Py.ok (mkArr (dt vt) [s0; s1]
                 (concat (zip_with (fun x row => map (Cscale x) row) sigma
                            (chunks s1 s0 (data vt)))))
      else Py.raise (Py.ValueError "operands could not be broadcast together")
  | _ => Py.raise (Py.ValueError "einstein sum subscripts do not match the operand")
  end.

(** [scipy.linalg.norm(sigma)]: the Euclidean norm of a real vector. *)
Definition norm (sigma : list R) : R :=
  sqrt (fold_right Rplus 0%R (map (fun s => (s * s)%R) sigma)).

(** [sigma / x]: every entry divided by [x]. *)
Definition divide (sigma : list R) (x : R) : list R := map (fun s => (s / x)%R) sigma.

(** [sigma > t], entry by entry. *)
Definition greater (sigma : list R) (t : R) : list bool :=
  map (fun s => if Rgt_dec s t then true else false) sigma.

(** [np.count_nonzero(mask)] *)
Definition count_nonzero (mask : list bool) : Z := Py.len (filter (fun b => b = true) mask).

End Np.

(** ** Site tensors *)

(** Modelled from the spec: the class [Matrix] of [ephMPS/mps/matrix.py] is
    not among the sources.  Following section 3 of the specification, a site
    tensor is an array whose first and last indices are the left and right
    bond and whose middle indices are physical; it carries the quantum-number
    labels [sigmaqn] of its physical indices. *)
Record Matrix : Type := mkMatrix {
  arr : Np.ndarray;
  mt_is_mpo : bool;
  sigmaqn : list Z
}.

Definition mt_shape (mt : Matrix) : list nat := Np.shape (arr mt).

(** Modelled from the spec: [mt.pdim], the dimensions of the physical
    indices, which are the middle indices [shape[1:-1]]. *)
Definition pdim (mt : Matrix) : list nat := removelast (drop 1 (mt_shape mt)).

Definition pdim_prod (mt : Matrix) : nat := Np.prod (pdim mt).

(** Modelled from the spec: [mt.bond_dim], the sizes of the left and right
    bond, [(shape[0], shape[-1])]. *)
Definition bond_dim (mt : Matrix) : Py.result (nat * nat) :=
  match mt_shape mt, rev (mt_shape mt) with
  | l :: _, r :: _ => Py.ok (l, r)
  | _, _ => Py.raise Py.IndexError
  end.

(** Modelled from the spec: [mt.r_combine()], the physical indices merged
    into the right bond (section 4.4, step 1). *)
Definition r_combine (mt : Matrix) : Py.result Np.ndarray :=
  match mt_shape mt with
  | l :: rest => Np.reshape (arr mt) [l; Np.prod rest]
  | [] => Py.raise Py.IndexError
  end.

(** Modelled from the spec: [mt.l_combine()], the physical indices merged
    into the left bond (section 4.4, step 1). *)
Definition l_combine (mt : Matrix) : Py.result Np.ndarray :=
  match rev (mt_shape mt) with
  | r :: rest => Np.reshape (arr mt) [Np.prod rest; r]
  | [] => Py.raise Py.IndexError
  end.

Definition with_sigmaqn (sq : list Z) (mt : Matrix) : Matrix :=
  mkMatrix (arr mt) (mt_is_mpo mt) sq.

(** ** The chain *)

(** The attributes set by [__init__].  [None] is [None] of [option]; the
    references to the physical model ([mol_list], [_ephtable], [_pbond_list])
    are only read by the subclasses' [_get_sigmaqn], which is a parameter
    below. *)
Record MatrixProduct : Type := mkMP {
  _mp : list Matrix;
  dtype : Np.dtype;
  _compress_method : string;
  _threshold : R;
  peak_bytes : Z;
  use_dummy_qn : bool;
  qn : option (list (list Z));
  qnidx : option Z;
  _qntot : option Z
}.

(** [MatrixProduct()] *)
Definition __init__ : MatrixProduct :=
  mkMP [] Np.float64 "svd" (1 / 1000)%R 0 false None None None.

Definition with_mp (l : list Matrix) (c : MatrixProduct) : MatrixProduct :=
  mkMP l (dtype c) (_compress_method c) (_threshold c) (peak_bytes c)
    (use_dummy_qn c) (qn c) (qnidx c) (_qntot c).

Definition with_dtype (d : Np.dtype) (c : MatrixProduct) : MatrixProduct :=
  mkMP (_mp c) d (_compress_method c) (_threshold c) (peak_bytes c)
    (use_dummy_qn c) (qn c) (qnidx c) (_qntot c).

Definition with_threshold (v : R) (c : MatrixProduct) : MatrixProduct :=
  mkMP (_mp c) (dtype c) (_compress_method c) v (peak_bytes c)
    (use_dummy_qn c) (qn c) (qnidx c) (_qntot c).

Definition with_qn (q : option (list (list Z))) (c : MatrixProduct) : MatrixProduct :=
  mkMP (_mp c) (dtype c) (_compress_method c) (_threshold c) (peak_bytes c)
    (use_dummy_qn c) q (qnidx c) (_qntot c).

Definition with_qnidx (i : option Z) (c : MatrixProduct) : MatrixProduct :=
  mkMP (_mp c) (dtype c) (_compress_method c) (_threshold c) (peak_bytes c)
    (use_dummy_qn c) (qn c) i (_qntot c).

Definition with_qntot (t : option Z) (c : MatrixProduct) : MatrixProduct :=
  mkMP (_mp c) (dtype c) (_compress_method c) (_threshold c) (peak_bytes c)
    (use_dummy_qn c) (qn c) (qnidx c) t.

(** Methods run on [self]: they read and update the chain and either return
    a value or raise.  The chain in the outcome is [self] when the method
    stops, also when it stops by raising. *)
Definition M (A : Type) : Type := MatrixProduct -> Py.result A * MatrixProduct.

Definition mret {A} (a : A) : M A := fun self => (Py.ok a, self).

Definition mbind {A B} (m : M A) (k : A -> M B) : M B :=
  fun self =>
    match m self with
    | (inl e, self') => (inl e, self')
    | (inr a, self') => k a self'
    end.

Definition lift {A} (r : Py.result A) : M A := fun self => (r, self).

Definition get : M MatrixProduct := fun self => (Py.ok self, self).

Definition modify (f : MatrixProduct -> MatrixProduct) : M unit :=
  fun self => (Py.ok tt, f self).

Notation "'do' x '<-' m ';' k" := (mbind m (fun x => k))
  (at level 10, x pattern, m at level 100, k at level 200).

(** [for x in l: body(x)] *)
Fixpoint for_ {A} (l : list A) (body : A -> M unit) : M unit :=
  match l with
  | [] => mret tt
  | x :: l' => do _ <- body x; for_ l' body
  end.

(** A value that must not be [None] where it is used. *)
Definition not_none {A} (o : option A) : Py.result A :=
  match o with
  | Some a => Py.ok a
  | None => Py.raise Py.TypeError
  end.

(** [site_num], [__len__] *)
Definition site_num (self : MatrixProduct) : Z := Py.len (_mp self).

(** The [threshold] setter. *)
Definition set_threshold (v : R) : M unit :=
  fun self =>
    if Rle_dec v 0 then (Py.raise (Py.ValueError "non-positive threshold"), self)
    else if Req_dec_T v 1 then (Py.raise (Py.ValueError "ambiguous threshold (1)"), self)
    else (Py.ok tt, with_threshold v self).

(** The [threshold] getter. *)
Definition threshold (self : MatrixProduct) : R := _threshold self.

(** The [qntot] getter. *)
Definition qntot (self : MatrixProduct) : option Z :=
  if use_dummy_qn self then Some 0 else _qntot self.

(** The [qntot] setter. *)
Definition set_qntot (t : option Z) : M unit :=
  fun self =>
    if negb (use_dummy_qn self) then (Py.ok tt, with_qntot t self)
    else (Py.ok tt, self).

(** [bond_dims] *)
Definition bond_dims (self : MatrixProduct) : Py.result (list nat) :=
  if site_num self =? 0 then Py.ok []
  else
    let? ls := Py.map_result (fun mt => let? b := bond_dim mt in Py.ok (fst b))
                 (_mp self) in
    let? last := Py.getitem (_mp self) (-1) in
    let? b := bond_dim last in
    Py.ok (ls ++ [snd b]).

(** [[0] * dim for dim in self.bond_dims] *)
Definition zero_qn (dims : list nat) : list (list Z) :=
  map (fun dim => replicate dim 0) dims.

Definition build_empty_qn : M unit :=
  do _ <- set_qntot (Some 0);
  do _ <- modify (with_qnidx (Some 0));
  do self <- get;
  do dims <- lift (bond_dims self);
  modify (with_qn (Some (zero_qn dims))).

Definition build_none_qn : M unit :=
  do _ <- set_qntot None;
  do _ <- modify (with_qnidx None);
  modify (with_qn None).

Definition clear_qn : M unit :=
  do _ <- set_qntot (Some 0);
  do self <- get;
  do dims <- lift (bond_dims self);
  modify (with_qn (Some (zero_qn dims))).

(** [[self.qntot - i for i in l]]: the subtraction is only evaluated when
    [l] has an element. *)
Definition complement (t : option Z) (l : list Z) : Py.result (list Z) :=
  match l with
  | [] => Py.ok []
  | _ => let? t := not_none t in Py.ok (map (fun i => t - i) l)
  end.

(** [self.qn[idx] = [self.qntot - i for i in self.qn[idx]]] *)
Definition flip_qn (idx : Z) : M unit :=
  do self <- get;
  do q <- lift (not_none (qn self));
  do l <- lift (Py.getitem q idx);
  do l' <- lift (complement (qntot self) l);
  do q' <- lift (Py.setitem q idx l');
  modify (with_qn (Some q')).

Definition move_qnidx (dstidx : Z) : M unit :=
  do self <- get;
  do a <- lift (not_none (qnidx self));
  do q <- lift (not_none (qn self));
  do _ <- for_ (Py.range (a + 1) (Py.len q - 1) 1) flip_qn;
  do self <- get;
  do q <- lift (not_none (qn self));
  do _ <- for_ (Py.range (Py.len q - 2) dstidx (-1)) flip_qn;
  modify (with_qnidx (Some dstidx)).

(** [is_left_canon], [is_right_canon]: [None] is equal to no integer. *)
Definition is_left_canon (self : MatrixProduct) : bool :=
  match qnidx self with
  | Some i => i =? site_num self - 1
  | None => false
  end.

Definition is_right_canon (self : MatrixProduct) : bool :=
  match qnidx self with
  | Some i => i =? 0
  | None => false
  end.

Definition iter_idx_list (self : MatrixProduct) : list Z :=
  if is_left_canon self then Py.range (site_num self - 1) 0 (-1)
  else Py.range 0 (site_num self - 1) 1.

Definition _switch_domain : M unit :=
  do self <- get;
  if is_left_canon self then modify (with_qnidx (Some 0))
  else modify (with_qnidx (Some (site_num self - 1))).

(** ** Collaborators

    What the class calls but does not define: the members its subclasses
    override ([is_mpo], [_get_sigmaqn]), the orthogonality checks of
    [Matrix], the constrained factorisation [svd_qn.Csvd] and
    [np.allclose]. *)

(** A quantum-number array handed to the factorisation: a bond's labels or
    the outer sum [np.add.outer] of two label vectors. *)
Inductive qnarray : Type :=
| QnVec (l : list Z)
| QnOuter (m : list (list Z)).

(** [np.add.outer(a, b)] *)
Definition add_outer (a b : list Z) : qnarray :=
  QnOuter (map (fun x => map (fun y => x + y) b) a).

(** The tuple [Csvd] returns: six components, or four with [QR=True]. *)
Inductive csvd_tuple : Type :=
| Tuple6 (u : Np.ndarray) (sigma1 : list R) (qnlset : list Z)
         (v : Np.ndarray) (sigma2 : list R) (qnrset : list Z)
| Tuple4 (u : Np.ndarray) (qnlset : list Z) (v : Np.ndarray) (qnrset : list Z).

Class Collaborators : Type := {
  is_mpo : MatrixProduct -> Py.result bool;
  _get_sigmaqn : MatrixProduct -> Z -> Py.result (list Z);
  check_lortho : Matrix -> bool;
  check_rortho : Matrix -> bool;
  Csvd : Np.ndarray -> qnarray -> qnarray -> option Z ->
         forall (QR : bool) (system : string), Py.result csvd_tuple;
  allclose : Matrix -> Matrix -> Py.result bool
}.

Section Methods.

Context {E : Collaborators}.

(** [array2mt(array, idx)] *)
Definition array2mt (array : Np.ndarray) (idx : Z) : M Matrix :=
  do self <- get;
  let a := Np.astype (dtype self) array in
  do mpo <- lift (is_mpo self);
  let mt := mkMatrix a mpo [] in
  if use_dummy_qn self then
    mret (with_sigmaqn (replicate (pdim_prod mt) 0) mt)
  else
    do sq <- lift (_get_sigmaqn self idx);
    mret (with_sigmaqn sq mt).

(** [self[item]] *)
Definition __getitem__ (item : Z) : M Matrix :=
  do self <- get; lift (Py.getitem (_mp self) item).

(** [self[key] = array] *)
Definition __setitem__ (key : Z) (array : Np.ndarray) : M unit :=
  do new_mt <- array2mt array key;
  do self <- get;
  do l <- lift (Py.setitem (_mp self) key new_mt);
  modify (with_mp l).

(** [self.append(array)] *)
Definition append (array : Np.ndarray) : M unit :=
  do self <- get;
  do new_mt <- array2mt array (site_num self);
  modify (fun c => with_mp (_mp c ++ [new_mt]) c).

(** [cls.from_raw_list(raw_list, mol_list)], run on a fresh chain. *)
Definition from_raw_list (raw_list : list Np.ndarray) : M unit :=
  match raw_list with
  | [] => mret tt
  | a0 :: _ =>
      do _ <- modify (with_dtype (Np.dt a0));
      for_ raw_list append
  end.

(** [check_left_canonical]: every tensor of [self[:-1]]. *)
Definition check_left_canonical (self : MatrixProduct) : bool :=
  forallb check_lortho (removelast (_mp self)).

(** [check_right_canonical]: every tensor of [self[1:]]. *)
Definition check_right_canonical (self : MatrixProduct) : bool :=
  forallb check_rortho (drop 1 (_mp self)).

(** [self.qn[idx] = labels] *)
Definition set_qn_at (idx : Z) (labels : list Z) : M unit :=
  do self <- get;
  do q <- lift (not_none (qn self));
  do q' <- lift (Py.setitem q idx labels);
  modify (with_qn (Some q')).

(** [x // y] for sizes *)
Definition floordiv (x y : nat) : Py.result nat :=
  if Nat.eqb y 0 then Py.raise Py.ZeroDivisionError else Py.ok (Nat.div x y).

(** [a.shape[i]] *)
Definition shape_at (a : Np.ndarray) (i : Z) : Py.result nat :=
  Py.getitem (Np.shape a) i.

(** A list of Python integers used as a shape. *)
Definition reshape_to (a : Np.ndarray) (m_trunc : Z) (build : nat -> list nat)
  : Py.result Np.ndarray :=
  if m_trunc <? 0 then Py.raise (Py.ValueError "negative dimensions not allowed")
  else Np.reshape a (build (Z.to_nat m_trunc)).

Definition _update_ms (idx : Z) (u vt : Np.ndarray) (sigma : option (list R))
  (qnlset qnrset : option (list Z)) (m_trunc : option Z) : M unit :=
  do m_trunc <- lift (match m_trunc with
                      | None => let? c := shape_at u 1 in Py.ok (Z.of_nat c)
                      | Some m => Py.ok m
                      end);
  do u <- lift (Np.slice_cols u m_trunc);
  do vt <- lift (Np.slice_rows vt m_trunc);
  do self <- get;
  do uvt <- lift (match sigma with
                  | Some sigma =>
                      let sigma := Py.slice_to sigma m_trunc in
                      if is_left_canon self
                      then let? u' := Np.einsum_cols u sigma in Py.ok (u', vt)
                      else let? vt' := Np.einsum_rows sigma vt in Py.ok (u, vt')
                  | None => Py.ok (u, vt)
                  end);
  let '(u, vt) := uvt in
  do ret_mpsi <-
    (if is_left_canon self then
       do prev <- __getitem__ (idx - 1);
       do t <- lift (Np.tensordot1 (arr prev) u);
       do _ <- __setitem__ (idx - 1) t;
       do mt <- __getitem__ idx;
       do c <- lift (shape_at vt 1);
       do r <- lift (floordiv c (pdim_prod mt));
       do ret_mpsi <- lift (reshape_to vt m_trunc (fun m => [m] ++ pdim mt ++ [r]));
       do _ <- match qnrset with
               | Some qnrset => set_qn_at idx (Py.slice_to qnrset m_trunc)
               | None => mret tt
               end;
       mret ret_mpsi
     else
       do next <- __getitem__ (idx + 1);
       do t <- lift (Np.tensordot1 vt (arr next));
       do _ <- __setitem__ (idx + 1) t;
       do mt <- __getitem__ idx;
       do c <- lift (shape_at u 0);
       do l <- lift (floordiv c (pdim_prod mt));
       do ret_mpsi <- lift (reshape_to u m_trunc (fun m => [l] ++ pdim mt ++ [m]));
       do _ <- match qnlset with
               | Some qnlset => set_qn_at (idx + 1) (Py.slice_to qnlset m_trunc)
               | None => mret tt
               end;
       mret ret_mpsi);
  do _ <- lift (Py.assert (Np.any ret_mpsi));
  __setitem__ idx ret_mpsi.

Definition _get_big_qn (idx : Z) : M (qnarray * qnarray) :=
  do mt <- __getitem__ idx;
  do self <- get;
  do q <- lift (not_none (qn self));
  do qnl <- lift (Py.getitem q idx);
  do qnr <- lift (Py.getitem q (idx + 1));
  do s0 <- lift (Py.getitem (mt_shape mt) 0);
  do _ <- lift (Py.assert (Nat.eqb (length qnl) s0));
  do s1 <- lift (Py.getitem (mt_shape mt) (-1));
  do _ <- lift (Py.assert (Nat.eqb (length qnr) s1));
  do _ <- lift (Py.assert (Nat.eqb (length (sigmaqn mt)) (pdim_prod mt)));
  if is_left_canon self
  then mret (QnVec qnl, add_outer (sigmaqn mt) qnr)
  else mret (add_outer qnl (sigmaqn mt), QnVec qnr).

(** The truncation rule of [compress]: the kept rank [m_trunc] for a
    threshold and the singular values of one site. *)
Definition m_trunc_of (threshold : R) (sigma : list R) : Z :=
  if Rlt_dec threshold 1 then
    let normed_sigma := Np.divide sigma (Np.norm sigma) in
    Np.count_nonzero (Np.greater normed_sigma threshold)
  else
    let m_trunc := Py.int threshold in
    Z.min m_trunc (Py.len sigma).

(** [mt = self[idx]; assert mt.any(); mt = mt.r_combine()] or [l_combine()] *)
Definition combined (idx : Z) : M Np.ndarray :=
  do mt <- __getitem__ idx;
  do _ <- lift (Py.assert (Np.any (arr mt)));
  do self <- get;
  if is_left_canon self then lift (r_combine mt) else lift (l_combine mt).

(** The body of the loop of [compress]. *)
Definition compress_site (system : string) (idx : Z) : M unit :=
  do mt <- combined idx;
  do big <- _get_big_qn idx;
  do self <- get;
  do t <- lift (Csvd mt (fst big) (snd big) (qntot self) false system);
  do t6 <- lift (match t with
                 | Tuple6 u _ qnlset v sigma qnrset => Py.ok (u, qnlset, v, sigma, qnrset)
                 | Tuple4 _ _ _ _ => Py.raise (Py.ValueError "not enough values to unpack")
                 end);
  let '(u, qnlset, v, sigma, qnrset) := t6 in
  let vt := Np.T v in
  do _ <- lift (Py.assert ((if Rlt_dec 0 (threshold self) then true else false)
                           && (if Req_dec_T (threshold self) 1 then false else true)));
  let m_trunc := m_trunc_of (threshold self) sigma in
  do _ <- lift (Py.assert (negb (m_trunc =? 0)));
  _update_ms idx u vt (Some sigma) (Some qnlset) (Some qnrset) (Some m_trunc).

(** The first statement of [compress]: ensure the chain is canonicalised. *)
Definition ensure_canonical (check_canonical : bool) : M unit :=
  do self <- get;
  if check_canonical then
    if is_left_canon self
    then lift (Py.assert (check_left_canonical self))
    else lift (Py.assert (check_right_canonical self))
  else mret tt.

Definition compress (check_canonical : bool) : M unit :=
  do _ <- ensure_canonical check_canonical;
  do self <- get;
  let system := if is_left_canon self then "R"%string else "L"%string in
  do _ <- for_ (iter_idx_list self) (compress_site system);
  _switch_domain.

(** The body of the loop of [canonicalise]. *)
Definition canonicalise_site (idx : Z) : M unit :=
  do mt <- combined idx;
  do big <- _get_big_qn idx;
  do self <- get;
  let system := if is_left_canon self then "R"%string else "L"%string in
  do t <- lift (Csvd mt (fst big) (snd big) (qntot self) true system);
  do t4 <- lift (match t with
                 | Tuple4 u qnlset v qnrset => Py.ok (u, qnlset, v, qnrset)
                 | Tuple6 _ _ _ _ _ _ => Py.raise (Py.ValueError "too many values to unpack")
                 end);
  let '(u, qnlset, v, qnrset) := t4 in
  _update_ms idx u (Np.T v) None (Some qnlset) (Some qnrset) None.

Definition canonicalise : M unit :=
  do self <- get;
  do _ <- for_ (iter_idx_list self) canonicalise_site;
  _switch_domain.

(** [self.copy()]: a deep copy is the same value. *)
Definition copy (self : MatrixProduct) : MatrixProduct := self.

(** [for i in range(self.site_num): self[i] = f(self[i])] *)
Definition map_sites (f : MatrixProduct -> Matrix -> Np.ndarray) : M unit :=
  do self <- get;
  for_ (Py.range 0 (site_num self) 1)
    (fun i => do mt <- __getitem__ i; do self <- get; __setitem__ i (f self mt)).

(** [conj()]: returns the new chain, [self] is not changed. *)
Definition conj (self : MatrixProduct) : Py.result MatrixProduct :=
  let new_mp := copy self in
  match map_sites (fun _ mt => Np.conj (arr mt)) new_mp with
  | (inl e, _) => inl e
  | (inr _, new_mp') => Py.ok new_mp'
  end.

(** One round of the loop of [dot]. *)
Definition dot_step (e0 : Np.ndarray) (mt1 mt2 : Matrix) : Py.result Np.ndarray :=
  let? e0 := Np.tensordot1 e0 (arr mt2) in
  if Np.ndim (arr mt1) =? 3 then
    let? e0 := Np.tensordot_front 2 e0 (arr mt1) in Py.ok (Np.T e0)
  else if Np.ndim (arr mt1) =? 4 then
    let? e0 := Np.tensordot_front 3 e0 (arr mt1) in Py.ok (Np.T e0)
  else
    let? _ := Py.assert false in Py.ok e0.

Fixpoint dot_loop (e0 : Np.ndarray) (pairs : list (Matrix * Matrix))
  : Py.result Np.ndarray :=
  match pairs with
  | [] => Py.ok e0
  | (mt1, mt2) :: rest => let? e0 := dot_step e0 mt1 mt2 in dot_loop e0 rest
  end.

(** [dot(other)]: neither chain is changed. *)
Definition dot (self other : MatrixProduct) : Py.result Np.ndarray :=
  let? _ := Py.assert (site_num self =? site_num other) in
  let? e0 := dot_loop Np.eye11 (Py.zip (_mp self) (_mp other)) in
  Np.getitem00 e0.

(** [to_complex(inplace)]: the outcome pairs the returned chain with
    [self]; with [inplace] they are one object. *)
Definition to_complex_body : M unit :=
  do _ <- modify (with_dtype Np.complex128);
  map_sites (fun self mt => Np.astype (dtype self) (arr mt)).

(** Run [body] on [new_mp], which is [self] itself when [inplace] and a
    copy of it otherwise. *)
Definition on_new_mp (inplace : bool) (body : MatrixProduct -> M unit)
  : M MatrixProduct :=
  fun self =>
    let new_mp := if inplace then self else copy self in
    let '(r, new_mp') := body self new_mp in
    let self' := if inplace then new_mp' else self in
    match r with
    | inl e => (inl e, self')
    | inr _ => (Py.ok new_mp', self')
    end.

Definition to_complex (inplace : bool) : M MatrixProduct :=
  on_new_mp inplace (fun _ => to_complex_body).


(** [self == other] *)
Fixpoint eq_loop (pairs : list (Matrix * Matrix)) : Py.result bool :=
  match pairs with
  | [] => Py.ok true
  | (m1, m2) :: rest =>
      let? close := allclose m1 m2 in
      if negb close then Py.ok false else eq_loop rest
  end.

Definition __eq__ (self other : MatrixProduct) : Py.result bool :=
  eq_loop (Py.zip (_mp self) (_mp other)).

Definition __ne__ (self other : MatrixProduct) : Py.result bool :=
  let? b := __eq__ self other in Py.ok (negb b).

End Methods.

(** ** Sample collaborators and chains

    Concrete inputs on which the methods are run: a subclass whose physical
    index has dimension two with neutral labels, a factorisation that is
    exact on unitary matrices, and small chains. *)

Definition real (x : R) : Np.complex := Np.mkC x 0.

(** The [n] x [n] identity matrix. *)
Definition identity (n : nat) : Np.ndarray :=
  Np.mkArr Np.float64 [n; n]
    (concat (map (fun i => map (fun j => if Nat.eqb i j then Np.C1 else Np.C0) (seq 0 n))
               (seq 0 n))).

(** For a unitary [mt]: [mt = mt * diag(1, ..., 1) * identity]. *)
Definition unitary_Csvd (mt : Np.ndarray) (qnbigl qnbigr : qnarray) (qntot : option Z)
  (QR : bool) (system : string) : Py.result csvd_tuple :=
  match Np.shape mt with
  | [n; m] =>
      if Nat.eqb n m then
        if QR then Py.ok (Tuple4 mt (replicate n 0) (identity n) (replicate n 0))
        else Py.ok (Tuple6 mt (replicate n 1%R) (replicate n 0)
                      (identity n) (replicate n 1%R) (replicate n 0))
      else Py.raise (Py.ValueError "not a square matrix")
  | _ => Py.raise (Py.ValueError "not a matrix")
  end.

(** Exact equality of two arrays of one shape, which [np.allclose] accepts. *)
Definition same_array (m1 m2 : Matrix) : Py.result bool :=
  if decide (Np.shape (arr m1) = Np.shape (arr m2)) then
    Py.ok (forallb (fun p => Np.C_is_zero (Np.mkC (Np.re (fst p) - Np.re (snd p))
                                                  (Np.im (fst p) - Np.im (snd p))))
             (Py.zip (Np.data (arr m1)) (Np.data (arr m2))))
  else Py.raise (Py.ValueError "operands could not be broadcast together").

Definition sample : Collaborators := {|
  is_mpo := fun _ => Py.ok false;
  _get_sigmaqn := fun _ _ => Py.ok [0; 0];
  check_lortho := fun _ => true;
  check_rortho := fun _ => true;
  Csvd := unitary_Csvd;
  allclose := same_array
|}.

(** A rank-3 tensor of shape (1, 2, 1) and a rank-4 tensor of shape
    (1, 2, 2, 1). *)
Definition site3 : Matrix :=
  mkMatrix (Np.mkArr Np.float64 [1; 2; 1]%nat [real 1; real 0]) false [0; 0].

Definition site4 : Matrix :=
  mkMatrix (Np.mkArr Np.float64 [1; 2; 2; 1]%nat [real 1; real 0; real 0; real 1])
    true [0; 0; 0; 0].

Definition chain_of (sites : list Matrix) (idx : Z) : MatrixProduct :=
  mkMP sites Np.float64 "svd" (1 / 1000)%R 0 false None (Some idx) (Some 0).

(** One-site chains: a state and an operator. *)
Definition mps1 : MatrixProduct := chain_of [site3] 0.
Definition mpo1 : MatrixProduct := chain_of [site4] 0.

(** A left-canonical chain of two sites with bond dimension two. *)
Definition left_site : Matrix :=
  mkMatrix (Np.mkArr Np.float64 [1; 2; 2]%nat [real 1; real 0; real 0; real 1])
    false [0; 0].

Definition right_site : Matrix :=
  mkMatrix (Np.mkArr Np.float64 [2; 2; 1]%nat [real 1; real 0; real 0; real 1])
    false [0; 0].

Definition two_sites : MatrixProduct :=
  with_qn (Some [[0]; [0; 0]; [0]]) (chain_of [left_site; right_site] 1).

(** The empty chain after [build_empty_qn()]: its total is established. *)
Definition established : MatrixProduct := snd (build_empty_qn __init__).

(** A chain with labels that are not neutral, and a chain with a threshold
    above the normalised singular values of its sites. *)
Definition labelled : MatrixProduct :=
  with_qntot (Some 3) (with_qn (Some [[0]; [1; 2]; [3]]) two_sites).

Definition strict_chain : MatrixProduct := with_threshold (9 / 10)%R two_sites.

Definition mps2 : MatrixProduct := chain_of [site3; site3] 0.

(** ** The properties, as the specification words them *)

(** Truncation: the number of entries of [sigma] that exceed [threshold]
    after division by the Euclidean norm of [sigma]. *)
Definition above (threshold n s : R) : bool :=
  if Rgt_dec (s / n) threshold then true else false.

Definition normalized_above (threshold : R) (sigma : list R) : Z :=
  Z.of_nat (length (List.filter (above threshold (Np.norm sigma)) sigma)).

(** Boundary moves: the labels with [q] replaced by [t - q] on the bonds
    [idxs], one bond after the other. *)
Definition flipped (t : Z) (idxs : list Z) (q : list (list Z)) : list (list Z) :=
  foldl (fun q i => alter (map (Z.sub t)) (Z.to_nat i) q) q idxs.

(** Sweeps: the indices [n-1, ..., 1] and [0, ..., n-2]. *)
Definition descending (n : Z) : list Z := reverse (seqZ 1 (n - 1)).
Definition ascending (n : Z) : list Z := seqZ 0 (n - 1).

(** Run [check], then [body] at the indices [visited] in order, then set the
    boundary to [target]. *)
Definition sweep (check : M unit) (visited : list Z) (body : Z -> M unit) (target : Z)
  : M unit :=
  do _ <- check; do _ <- for_ visited body; modify (with_qnidx (Some target)).

(** The [system] argument [compress] passes to the factorisation. *)
Definition system_of (s : MatrixProduct) : string :=
  if is_left_canon s then "R"%string else "L"%string.

(** A method that leaves the boundary index and the number of sites as
    they are, whether it returns or raises. *)
Definition keeps_boundary {A} (m : M A) : Prop :=
  forall s, qnidx (snd (m s)) = qnidx s /\ site_num (snd (m s)) = site_num s.

(** A method that does not change the chain. *)
Definition reads_only {A} (m : M A) : Prop := forall s, snd (m s) = s.

(** The pairs of tensors [dot] contracts without a shape error: each pair
    has one rank, 3 or 4, and equal physical dimensions, and the left bonds
    of a pair are the right bonds of the pair before it. *)
Inductive chained : nat -> nat -> list (Matrix * Matrix) -> nat -> nat -> Prop :=
| chained_nil (b1 b2 : nat) : chained b1 b2 [] b1 b2
| chained_rank3 (b1 b2 p r1 r2 c1 c2 : nat) (mt1 mt2 : Matrix) rest :
    mt_shape mt1 = [b1; p; r1] -> mt_shape mt2 = [b2; p; r2] ->
    chained r1 r2 rest c1 c2 ->
    chained b1 b2 ((mt1, mt2) :: rest) c1 c2
| chained_rank4 (b1 b2 p q r1 r2 c1 c2 : nat) (mt1 mt2 : Matrix) rest :
    mt_shape mt1 = [b1; p; q; r1] -> mt_shape mt2 = [b2; p; q; r2] ->
    chained r1 r2 rest c1 c2 ->
    chained b1 b2 ((mt1, mt2) :: rest) c1 c2.

(** The chain [s'] is [s] with the tensors from site [a] on cast to the
    dtype of the chain. *)
Definition cast_from (a : nat) (s s' : MatrixProduct) : Prop :=
  dtype s' = dtype s /\ qnidx s' = qnidx s /\ site_num s' = site_num s
  /\ forall j mt, _mp s !! j = Some mt ->
       exists mt', _mp s' !! j = Some mt'
                   /\ arr mt' = if decide (a <= j)%nat
                                then Np.astype (dtype s) (arr mt) else arr mt.

Section Observations.

Context {E : Collaborators}.

(** The members a subclass overrides return: [is_mpo] always, and
    [_get_sigmaqn] at the sites of the chain. *)
Definition subclass_total : Prop :=
  (forall s, exists b, is_mpo s = Py.ok b)
  /\ (forall s i, 0 <= i < site_num s -> exists l, _get_sigmaqn s i = Py.ok l).

(** The singular values the factorisation returns at site [idx]. *)
Definition spectrum_at (system : string) (idx : Z) : M (list R) :=
  do mt <- combined idx;
  do big <- _get_big_qn idx;
  do self <- get;
  do t <- lift (Csvd mt (fst big) (snd big) (qntot self) false system);
  match t with
  | Tuple6 _ _ _ _ sigma _ => mret sigma
  | Tuple4 _ _ _ _ => lift (Py.raise (Py.ValueError "not enough values to unpack"))
  end.

(** The kept rank the truncation rule yields at site [idx]. *)
Definition kept_rank_at (system : string) (idx : Z) : M Z :=
  do sigma <- spectrum_at system idx;
  do self <- get;
  mret (m_trunc_of (threshold self) sigma).

End Observations.

(** ** The remaining methods of the class *)

Definition with_compress_method (v : string) (c : MatrixProduct) : MatrixProduct :=
  mkMP (_mp c) (dtype c) v (_threshold c) (peak_bytes c)
    (use_dummy_qn c) (qn c) (qnidx c) (_qntot c).

Definition with_peak_bytes (b : Z) (c : MatrixProduct) : MatrixProduct :=
  mkMP (_mp c) (dtype c) (_compress_method c) (_threshold c) b
    (use_dummy_qn c) (qn c) (qnidx c) (_qntot c).

(** The [compress_method] getter and setter. *)
Definition compress_method (self : MatrixProduct) : string := _compress_method self.

Definition set_compress_method (value : string) : M unit :=
  do _ <- lift (Py.assert (existsb (String.eqb value) ["svd"; "variational"]%string));
  modify (with_compress_method value).

(** [is_complex] *)
Definition is_complex (self : MatrixProduct) : bool :=
  match dtype self with
  | Np.complex128 => true
  | Np.float64 => false
  end.

(** [array.nbytes]: eight bytes for a float64 entry, sixteen for a
    complex128 entry. *)
Definition nbytes (a : Np.ndarray) : Z :=
  Z.of_nat (Np.prod (Np.shape a))
  * match Np.dt a with Np.float64 => 8 | Np.complex128 => 16 end.

(** [total_bytes] *)
Definition total_bytes (self : MatrixProduct) : Z :=
  foldr Z.add 0 (map (fun mt => nbytes (arr mt)) (_mp self)).

(** [set_peak_bytes(new_bytes)].  After the assignment the method formats
    the frame [inspect.stack()[2]] for a log message, which exists when the
    call stack has more than two frames; [stack_depth] is the number of
    frames at the call, the one of [set_peak_bytes] included. *)
Definition set_peak_bytes (stack_depth : nat) (new_bytes : option Z) : M unit :=
  do self <- get;
  let new_bytes := match new_bytes with
                   | None => total_bytes self
                   | Some b => b
                   end in
  if new_bytes <? peak_bytes self then mret tt
  else
    do _ <- modify (with_peak_bytes new_bytes);
    lift (if (stack_depth <=? 2)%nat then Py.raise Py.IndexError else Py.ok tt).

(** [to_raw_list()] *)
Definition to_raw_list (self : MatrixProduct) : list Np.ndarray :=
  map arr (_mp self).

(** An array stored as the dtype [d] says: its dtype is [d], and its
    entries are real when [d] is float64. *)
Definition stored_as (d : Np.dtype) (a : Np.ndarray) : Prop :=
  Np.dt a = d /\ (d = Np.float64 -> Forall (fun z => Np.im z = 0%R) (Np.data a)).

(** An array of at least two entries.  On such an array the call
    [self.dtype(array)] of [array2mt] is the cast [Np.astype], which keeps
    the shape; on an array of one entry NumPy may return a scalar instead. *)
Definition several_entries (a : Np.ndarray) : Prop := (1 < Np.prod (Np.shape a))%nat.

(** The largest of [b] and the numbers of [l]. *)
Definition high_water (b : Z) (l : list Z) : Z := foldl Z.max b l.

(** The bonds between two boundary positions [a] and [b]:
    [min a b + 1, ..., max a b]. *)
Definition between (a b : Z) : list Z := seqZ (Z.min a b + 1) (Z.max a b - Z.min a b).

(** Every tensor has a left and a right bond, and the right bond of a
    tensor is the left bond of the next one. *)
Fixpoint bonded (l : list Matrix) : Prop :=
  match l with
  | [] => True
  | mt :: rest =>
      (exists b, bond_dim mt = Py.ok b
                 /\ match rest with
                    | [] => True
                    | next :: _ => exists b', bond_dim next = Py.ok b' /\ snd b = fst b'
                    end)
      /\ bonded rest
  end.

Section MoreObservations.

Context {E : Collaborators}.

(** The members a subclass overrides return at the position [append]
    asks for, the current number of sites. *)
Definition appendable : Prop :=
  (forall s, exists b, is_mpo s = Py.ok b)
  /\ (forall s, exists l, _get_sigmaqn s (site_num s) = Py.ok l).

End MoreObservations.

(** More sample inputs: collaborators whose orthogonality checks fail, a
    chain without labels, a chain whose second tensor is zero, and a tensor
    that differs from [site3] in its second entry. *)
Definition unorthogonal : Collaborators := {|
  is_mpo := fun _ => Py.ok false;
  _get_sigmaqn := fun _ _ => Py.ok [0; 0];
  check_lortho := fun _ => false;
  check_rortho := fun _ => false;
  Csvd := unitary_Csvd;
  allclose := same_array
|}.

Definition unlabelled : MatrixProduct := chain_of [left_site; right_site] 1.

Definition zero_site : Matrix :=
  mkMatrix (Np.mkArr Np.float64 [2; 2; 1]%nat [real 0; real 0; real 0; real 0])
    false [0; 0].

Definition hollow : MatrixProduct :=
  with_qn (Some [[0]; [0; 0]; [0]]) (chain_of [left_site; zero_site] 1).

Definition site3_other : Matrix :=
  mkMatrix (Np.mkArr Np.float64 [1; 2; 1]%nat [real 1; real 1]) false [0; 0].

Definition mps1_other : MatrixProduct := chain_of [site3_other] 0.

(** ** The truncation rule in binary64 arithmetic

    [m_trunc_of] idealises float64 as the real numbers.  The kept rank is
    a count of comparisons, and rounding the quotients can change it, so
    the truncation rule of [compress] is embedded a second time over the
    primitive floats, which are the IEEE 754 binary64 numbers float64 is
    made of: [/] is [PrimFloat.div], [<] and [>] are [PrimFloat.ltb]. *)

Module F64.

(** The integer part of the number [(-1)^s * m * 2^e]; [rnd] is the
    integer division that does the rounding when [e] is negative. *)
Definition scaled (rnd : Z -> Z -> Z) (s : bool) (m : positive) (e : Z) : Z :=
  let sm := if s then Z.neg m else Z.pos m in
  if 0 <=? e then sm * 2 ^ e else rnd sm (2 ^ (- e)).

(** [int(x)] for a float [x]: rounding towards zero.  [None] where Python
    raises: [OverflowError] for an infinity, [ValueError] for nan. *)
Definition int (x : float) : option Z :=
  match Prim2SF x with
  | S754_zero _ => Some 0
  | S754_finite s m e => Some (scaled Z.quot s m e)
  | S754_infinity _ | S754_nan => None
  end.

(** [sigma / x] and [sigma > t], entry by entry. *)
Definition divide (sigma : list float) (x : float) : list float :=
  map (fun s => PrimFloat.div s x) sigma.

Definition greater (sigma : list float) (t : float) : list bool :=
  map (fun s => PrimFloat.ltb t s) sigma.

(** The kept rank [m_trunc] of [compress] for a float threshold and float64
    singular values.  [norm] stands for [scipy.linalg.norm], which hands
    the Euclidean norm to the BLAS routine [nrm2].  A threshold given as a
    Python integer compares and truncates as the float of the same value. *)
Definition m_trunc (norm : list float -> float) (threshold : float)
    (sigma : list float) : option Z :=
  if PrimFloat.ltb threshold 1 then
    let normed_sigma := divide sigma (norm sigma) in
    Some (Np.count_nonzero (greater normed_sigma threshold))
  else
    match int threshold with
    | Some m_trunc => Some (Z.min m_trunc (Py.len sigma))
    | None => None
    end.

(** The Euclidean norm with every operation rounded to binary64: the
    square root of the sum of the squares. *)
Definition norm2 (sigma : list float) : float :=
  PrimFloat.sqrt
    (fold_right PrimFloat.add 0%float (map (fun s => PrimFloat.mul s s) sigma)).

(** The properties, as the specification words them: a number that is
    neither an infinity nor nan, the real number a float stands for, its
    floor, and the count of the values that exceed the threshold after
    division by the norm. *)
Definition finite (x : float) : bool :=
  match Prim2SF x with
  | S754_zero _ | S754_finite _ _ _ => true
  | S754_infinity _ | S754_nan => false
  end.

Definition to_R (x : float) : R :=
  match Prim2SF x with
  | S754_finite s m e =>
      let sm := IZR (if s then Z.neg m else Z.pos m) in
      if 0 <=? e then (sm * IZR (2 ^ e))%R else (sm / IZR (2 ^ (- e)))%R
  | _ => 0%R
  end.

Definition floor (x : float) : option Z :=
  match Prim2SF x with
  | S754_zero _ => Some 0
  | S754_finite s m e => Some (scaled Z.div s m e)
  | S754_infinity _ | S754_nan => None
  end.

Definition normalized_above (norm : list float -> float) (threshold : float)
    (sigma : list float) : Z :=
  Z.of_nat
    (length (List.filter (fun s => PrimFloat.ltb threshold (PrimFloat.div s (norm sigma)))
               sigma)).

End F64.

(** * Properties *)

(** ** Stepping through a method *)

Lemma bind_get {A} (k : MatrixProduct -> M A) (s : MatrixProduct) :
  (do x <- get; k x) s = k s s.
Proof. reflexivity. Qed.

Lemma bind_modify {A} (f : MatrixProduct -> MatrixProduct) (k : unit -> M A)
  (s : MatrixProduct) :
  (do x <- modify f; k x) s = k tt (f s).
Proof. reflexivity. Qed.

Lemma bind_mret {A B} (a : A) (k : A -> M B) (s : MatrixProduct) :
  (do x <- mret a; k x) s = k a s.
Proof. reflexivity. Qed.

Lemma bind_ok {A B} (m : M A) (k : A -> M B) (s s' : MatrixProduct) (a : A) :
  m s = (Py.ok a, s') -> (do x <- m; k x) s = k a s'.
Proof. intros H. unfold mbind. now rewrite H. Qed.

Lemma bind_raise {A B} (m : M A) (k : A -> M B) (s s' : MatrixProduct) (e : Py.exn) :
  m s = (Py.raise e, s') -> (do x <- m; k x) s = (Py.raise e, s').
Proof. intros H. unfold mbind. now rewrite H. Qed.

Lemma bind_lift_ok {A B} (r : Py.result A) (a : A) (k : A -> M B) (s : MatrixProduct) :
  r = Py.ok a -> (do x <- lift r; k x) s = k a s.
Proof. intros ->. reflexivity. Qed.

Lemma bind_ok_inv {A B} (m : M A) (k : A -> M B) (s s' : MatrixProduct) (b : B) :
  (do x <- m; k x) s = (Py.ok b, s') ->
  exists a s1, m s = (Py.ok a, s1) /\ k a s1 = (Py.ok b, s').
Proof.
  unfold mbind. destruct (m s) as [[e | a] s1]; [discriminate |]. eauto.
Qed.

Lemma for_stops {A} (pre post : list A) (x : A) (body : A -> M unit)
  (s s1 s2 : MatrixProduct) (e : Py.exn) :
  for_ pre body s = (Py.ok tt, s1) -> body x s1 = (Py.raise e, s2) ->
  for_ (pre ++ x :: post) body s = (Py.raise e, s2).
Proof.
  revert s. induction pre as [| y pre IH]; intros s Hpre Hx.
  - cbn in Hpre. injection Hpre as <-. cbn [app for_].
    now rewrite (bind_raise _ _ _ _ _ Hx).
  - cbn [app for_] in *. unfold mbind in Hpre |- *.
    destruct (body y s) as [[e' | []] s0]; [discriminate |].
    now apply IH.
Qed.

(** ** Python indices and ranges *)

Lemma norm_index_in_range (n : nat) (i : Z) :
  0 <= i < Z.of_nat n -> Py.norm_index n i = Some (Z.to_nat i).
Proof.
  intros H. unfold Py.norm_index.
  destruct (Z.leb_spec 0 i); [| lia]. destruct (Z.ltb_spec i (Z.of_nat n)); [| lia].
  reflexivity.
Qed.

Lemma setitem_length {A} (l l' : list A) (i : Z) (v : A) :
  Py.setitem l i v = Py.ok l' -> length l' = length l.
Proof.
  unfold Py.setitem. destruct (Py.norm_index (length l) i); [| discriminate].
  intros H. injection H as <-. apply length_insert.
Qed.

Lemma range_up (a b : Z) : Py.range a b 1 = seqZ a (b - a).
Proof.
  unfold Py.range. cbn [Z.ltb Z.compare].
  replace ((b - a + 1 - 1) / 1) with (b - a) by (rewrite Z.div_1_r; lia).
  apply list_eq. intros i. rewrite list_lookup_fmap.
  destruct (decide (Z.of_nat i < b - a)) as [Hlt | Hge].
  - rewrite !lookup_seqZ_lt by lia. cbn. f_equal. lia.
  - rewrite !lookup_seqZ_ge by lia. reflexivity.
Qed.

Lemma range_down (a b : Z) : Py.range a b (-1) = reverse (seqZ (b + 1) (a - b)).
Proof.
  unfold Py.range. change (0 <? -1) with false. change (-1 <? 0) with true.
  cbn match. change (- (-1)) with 1.
  replace ((a - b - -1 - 1) / 1) with (a - b) by (rewrite Z.div_1_r; lia).
  apply list_eq. intros i. rewrite list_lookup_fmap.
  destruct (decide (Z.of_nat i < a - b)) as [Hlt | Hge].
  - rewrite reverse_lookup by (rewrite length_seqZ; lia).
    rewrite length_seqZ. rewrite (lookup_seqZ_lt 0) by lia.
    rewrite lookup_seqZ_lt by lia. cbn. f_equal. lia.
  - rewrite lookup_seqZ_ge by lia.
    symmetry. apply lookup_ge_None. rewrite length_reverse, length_seqZ. lia.
Qed.

Lemma range_down_up (n x : Z) :
  Py.range (n - 2) x (-1) = reverse (Py.range (x + 1) (n - 1) 1).
Proof. rewrite range_down, range_up. do 2 f_equal. lia. Qed.

Lemma range_up_bounds (a b : Z) : Forall (fun i => a <= i < b) (Py.range a b 1).
Proof.
  rewrite range_up. apply Forall_forall. intros i Hi.
  apply elem_of_seqZ in Hi. lia.
Qed.

Example descending_4 : descending 4 = [3; 2; 1] /\ ascending 4 = [0; 1; 2].
Proof. split; reflexivity. Qed.

(** ** The threshold setter *)

Lemma set_threshold_rejected (v : R) (self : MatrixProduct) :
  (v <= 0 \/ v = 1)%R ->
  exists msg, set_threshold v self = (Py.raise (Py.ValueError msg), self).
Proof.
  intros H. unfold set_threshold.
  destruct (Rle_dec v 0) as [Hle | Hgt]; [eauto |].
  destruct (Req_dec_T v 1) as [He | Hne]; [eauto |].
  exfalso. destruct H; [apply Hgt | apply Hne]; assumption.
Qed.

Lemma set_threshold_accepted (v : R) (self : MatrixProduct) :
  ~ (v <= 0 \/ v = 1)%R ->
  set_threshold v self = (Py.ok tt, with_threshold v self).
Proof.
  intros H. unfold set_threshold.
  destruct (Rle_dec v 0) as [Hle | Hgt]; [exfalso; apply H; now left |].
  destruct (Req_dec_T v 1) as [He | Hne]; [exfalso; apply H; now right |].
  reflexivity.
Qed.

(** C6: assigning the threshold raises exactly when the value is
    non-positive or 1.  A rejected assignment leaves the chain, and so the
    stored threshold, as it was, and a sweep sequenced after it is not run:
    the program stops with the setter's exception.  An accepted assignment
    returns and the stored threshold is the assigned value. *)
Theorem threshold_assignment {E : Collaborators} (v : R) (self : MatrixProduct) :
  (Py.raises (fst (set_threshold v self)) <-> (v <= 0 \/ v = 1)%R)
  /\ ((v <= 0 \/ v = 1)%R ->
      snd (set_threshold v self) = self
      /\ forall check_canonical,
           (do _ <- set_threshold v; compress check_canonical) self
           = (fst (set_threshold v self), self))
  /\ (~ (v <= 0 \/ v = 1)%R ->
      fst (set_threshold v self) = Py.ok tt
      /\ threshold (snd (set_threshold v self)) = v).
Proof.
  split; [split | split].
  - intros [e He]. unfold set_threshold in He.
    destruct (Rle_dec v 0) as [Hle | Hgt]; [now left |].
    destruct (Req_dec_T v 1) as [He1 | Hne]; [now right | discriminate].
  - intros H. destruct (set_threshold_rejected v self H) as [msg Hm].
    rewrite Hm. eexists. reflexivity.
  - intros H. destruct (set_threshold_rejected v self H) as [msg Hm].
    split; [now rewrite Hm |].
    intros cc. unfold mbind. rewrite Hm. reflexivity.
  - intros H. rewrite (set_threshold_accepted v self H). split; reflexivity.
Qed.

(** A threshold of exactly 1 on a fresh chain. *)
Lemma threshold_assignment_witness :
  Py.raises (fst (set_threshold 1 __init__))
  /\ snd (set_threshold 1 __init__) = __init__
  /\ threshold (snd (set_threshold (1 / 2) __init__)) = (1 / 2)%R.
Proof.
  destruct (threshold_assignment (E := sample) 1 __init__) as (Hiff & Hrej & _).
  destruct (threshold_assignment (E := sample) (1 / 2) __init__) as (_ & _ & Hacc).
  split; [apply Hiff; right; reflexivity |].
  split; [apply Hrej; right; reflexivity |].
  apply Hacc. intros [H | H]; lra.
Defined.

(** ** The total quantum number *)

(** C5, as the code has it: with [use_dummy_qn] set the setter ignores the
    assignment and the getter reads 0; with [use_dummy_qn] unset every
    assignment replaces the stored value by the assigned one, whatever was
    stored before. *)
Theorem qntot_assignment (t : option Z) (self : MatrixProduct) :
  (use_dummy_qn self = true ->
   set_qntot t self = (Py.ok tt, self) /\ qntot self = Some 0)
  /\ (use_dummy_qn self = false ->
      set_qntot t self = (Py.ok tt, with_qntot t self)
      /\ _qntot (snd (set_qntot t self)) = t
      /\ qntot (snd (set_qntot t self)) = t).
Proof.
  unfold set_qntot, qntot. split; intros H; rewrite H; cbn.
  - split; reflexivity.
  - rewrite H. repeat split.
Qed.

Lemma qntot_assignment_witness :
  set_qntot (Some 5) established = (Py.ok tt, with_qntot (Some 5) established)
  /\ qntot (snd (set_qntot None established)) = None.
Proof.
  destruct (qntot_assignment (Some 5) established) as [_ H5].
  destruct (qntot_assignment None established) as [_ Hn].
  split; [apply H5 | apply Hn]; reflexivity.
Defined.

(** The total of [established] is 0 and dummy mode is off, and assigning 5
    changes the stored value. *)
Lemma qntot_reassigned :
  _qntot established = Some 0
  /\ use_dummy_qn established = false
  /\ _qntot (snd (set_qntot (Some 5) established)) = Some 5
  /\ _qntot (snd (set_qntot (Some 5) established)) <> _qntot established.
Proof. repeat split. discriminate. Qed.

(** ** The truncation rule *)

Lemma count_greater_divide (t n : R) (sigma : list R) :
  Np.count_nonzero (Np.greater (Np.divide sigma n) t)
  = Z.of_nat (length (List.filter (above t n) sigma)).
Proof.
  unfold Np.count_nonzero, Py.len. f_equal.
  induction sigma as [| s sigma IH]; [reflexivity |].
  cbn [Np.divide Np.greater map List.filter]. unfold above at 1.
  rewrite filter_cons.
  destruct (Rgt_dec (s / n) t); cbn [length].
  - destruct (decide (true = true)) as [_ | Hne]; [| congruence].
    cbn [length]. f_equal. exact IH.
  - destruct (decide (false = true)) as [Heq | _]; [discriminate |]. exact IH.
Qed.

Lemma int_floor (x : R) : (0 <= x)%R -> Py.int x = Zfloor x.
Proof. intros H. unfold Py.int. destruct (Rle_dec 0 x); [reflexivity | contradiction]. Qed.

Lemma m_trunc_below_one (threshold : R) (sigma : list R) :
  (threshold < 1)%R -> m_trunc_of threshold sigma = normalized_above threshold sigma.
Proof.
  intros H. unfold m_trunc_of.
  destruct (Rlt_dec threshold 1) as [_ | Hn]; [| contradiction].
  apply count_greater_divide.
Qed.

Lemma above_antitone (t1 t2 n s : R) :
  (t1 < t2)%R -> above t2 n s = true -> above t1 n s = true.
Proof.
  unfold above. intros Ht.
  destruct (Rgt_dec (s / n) t2); [| discriminate].
  destruct (Rgt_dec (s / n) t1); [reflexivity | lra].
Qed.

Lemma filter_length_le {A} (p q : A -> bool) (l : list A) :
  (forall x, p x = true -> q x = true) ->
  (length (List.filter p l) <= length (List.filter q l))%nat.
Proof.
  intros Hpq. induction l as [| x l IH]; [reflexivity |].
  cbn [List.filter]. destruct (p x) eqn:Hp.
  - rewrite (Hpq x Hp). cbn [length]. lia.
  - destruct (q x); cbn [length]; lia.
Qed.

(** C4: for one spectrum and thresholds [0 < t1 < t2 < 1], the rank kept at
    [t1] is at least the rank kept at [t2]. *)
Theorem truncation_monotone (t1 t2 : R) (sigma : list R) :
  (0 < t1)%R -> (t1 < t2)%R -> (t2 < 1)%R ->
  m_trunc_of t2 sigma <= m_trunc_of t1 sigma.
Proof.
  intros H0 H12 H1.
  rewrite (m_trunc_below_one t1) by lra. rewrite (m_trunc_below_one t2) by lra.
  unfold normalized_above. apply inj_le, filter_length_le.
  intros s. apply above_antitone, H12.
Qed.

Lemma truncation_monotone_witness :
  m_trunc_of (7 / 10) [4; 3]%R <= m_trunc_of (1 / 2) [4; 3]%R.
Proof. apply truncation_monotone; lra. Defined.

(** ** The truncation rule in binary64 arithmetic *)

Lemma compare_cont_asym (p q : positive) :
  Pos.compare_cont Eq q p = CompOpp (Pos.compare_cont Eq p q).
Proof. now rewrite Pos.compare_cont_antisym. Qed.

Lemma SFltb_asym (a b : spec_float) : SFltb a b = true -> SFltb b a = false.
Proof.
  unfold SFltb, SFcompare.
  destruct a as [sa | sa | | sa ma ea], b as [sb | sb | | sb mb eb];
    try destruct sa; try destruct sb; try discriminate; try reflexivity;
    rewrite (Z.compare_antisym eb ea); destruct (eb ?= ea); cbn;
    try discriminate; try reflexivity;
    change (PosDef.Pos.compare_cont Eq mb ma) with (Pos.compare_cont Eq mb ma);
    rewrite (compare_cont_asym ma mb);
    destruct (Pos.compare_cont Eq ma mb); cbn; try discriminate; reflexivity.
Qed.

Lemma ltb_asym (x y : float) : PrimFloat.ltb x y = true -> PrimFloat.ltb y x = false.
Proof. rewrite !ltb_spec. apply SFltb_asym. Qed.

(** A float above 1 is a positive number or the positive infinity. *)
Lemma above_one_positive (x : float) :
  PrimFloat.ltb 1 x = true ->
  (exists m e, Prim2SF x = S754_finite false m e) \/ Prim2SF x = S754_infinity false.
Proof.
  rewrite ltb_spec. change (Prim2SF 1) with (S754_finite false 4503599627370496 (-52)).
  unfold SFltb, SFcompare.
  destruct (Prim2SF x) as [s | s | | s m e]; try discriminate.
  - destruct s; [discriminate | now right].
  - destruct s; [discriminate |]. intros _. left. now exists m, e.
Qed.

Lemma f64_count (t n : float) (sigma : list float) :
  Np.count_nonzero (F64.greater (F64.divide sigma n) t)
  = Z.of_nat (length (List.filter (fun s => PrimFloat.ltb t (PrimFloat.div s n)) sigma)).
Proof.
  unfold Np.count_nonzero, Py.len. f_equal.
  induction sigma as [| s sigma IH]; [reflexivity |].
  cbn [F64.divide F64.greater map List.filter]. rewrite filter_cons.
  destruct (PrimFloat.ltb t (PrimFloat.div s n)); cbn [length].
  - destruct (decide (true = true)) as [_ | Hne]; [| congruence].
    cbn [length]. f_equal. exact IH.
  - destruct (decide (false = true)) as [Heq | _]; [discriminate |]. exact IH.
Qed.

(** [F64.floor] is the floor of the real number the float stands for. *)
Lemma floor_bounds (x : float) (k : Z) :
  F64.floor x = Some k -> (IZR k <= F64.to_R x < IZR k + 1)%R.
Proof.
  unfold F64.floor, F64.to_R, F64.scaled.
  destruct (Prim2SF x) as [s | s | | s m e]; try discriminate.
  - intros [= <-]. lra.
  - set (sm := if s then Z.neg m else Z.pos m). intros [= <-].
    destruct (Z.leb_spec 0 e) as [He | He].
    + rewrite mult_IZR. lra.
    + assert (Hp : 0 < 2 ^ (- e)) by (apply Z.pow_pos_nonneg; lia).
      pose proof (Z.mul_div_le sm _ Hp) as Hlo.
      pose proof (Z.mul_succ_div_gt sm _ Hp) as Hhi.
      apply IZR_le in Hlo. apply IZR_lt in Hhi.
      rewrite mult_IZR in Hlo, Hhi. rewrite succ_IZR in Hhi.
      apply IZR_lt in Hp. set (d := IZR (2 ^ (- e))) in *.
      assert (Hq : (IZR sm = IZR sm / d * d)%R) by (field; lra).
      set (q := (IZR sm / d)%R) in *. split; nra.
Qed.

(** C2: in binary64 arithmetic, for a threshold strictly between 0 and 1
    the kept rank is the number of entries of [sigma] that exceed the
    threshold after division by the norm of [sigma]; for a finite threshold
    above 1 it is the smaller of the floor of the threshold and the length
    of [sigma]. *)
Theorem truncation_rule_binary64 (norm : list float -> float) (threshold : float)
    (sigma : list float) :
  (PrimFloat.ltb 0 threshold = true -> PrimFloat.ltb threshold 1 = true ->
   F64.m_trunc norm threshold sigma = Some (F64.normalized_above norm threshold sigma))
  /\ (PrimFloat.ltb 1 threshold = true -> F64.finite threshold = true ->
      exists k, F64.floor threshold = Some k
                /\ (IZR k <= F64.to_R threshold < IZR k + 1)%R
                /\ F64.m_trunc norm threshold sigma = Some (Z.min k (Py.len sigma))).
Proof.
  split.
  - intros _ Hlt. unfold F64.m_trunc. rewrite Hlt. cbv zeta.
    rewrite f64_count. reflexivity.
  - intros Hgt Hfin. unfold F64.m_trunc. rewrite (ltb_asym _ _ Hgt).
    assert (Hk : exists k, F64.floor threshold = Some k /\ F64.int threshold = Some k).
    { unfold F64.finite in Hfin. unfold F64.floor, F64.int.
      destruct (above_one_positive threshold Hgt) as [(m & e & Hx) | Hx];
        rewrite Hx in *; [| discriminate].
      eexists. split; [reflexivity |]. f_equal. unfold F64.scaled.
      destruct (Z.leb_spec 0 e); [reflexivity |].
      apply Z.quot_div_nonneg; [lia | apply Z.pow_pos_nonneg; lia]. }
    destruct Hk as (k & Hfloor & Hint). exists k.
    split; [exact Hfloor |]. split; [exact (floor_bounds _ _ Hfloor) |].
    rewrite Hint. reflexivity.
Qed.

(** The spectrum (4, 3) at threshold 0.75 keeps one value, since 4/5
    exceeds 0.75 and 3/5 does not; at threshold 2.5 a spectrum of three
    values keeps two.  The spectrum (1, 1) at the binary64 number next below
    the square root of 1/2 keeps no value: the quotient of 1 by the rounded
    norm is that number, not a larger one. *)
Lemma truncation_rule_binary64_witness :
  F64.m_trunc F64.norm2 0.75%float [4; 3]%float = Some 1
  /\ F64.m_trunc F64.norm2 2.5%float [4; 3; 1]%float = Some 2
  /\ F64.m_trunc F64.norm2 0x1.6a09e667f3bccp-1%float [1; 1]%float = Some 0.
Proof.
  split; [| split].
  - rewrite (proj1 (truncation_rule_binary64 F64.norm2 0.75%float [4; 3]%float));
      reflexivity.
  - destruct (proj2 (truncation_rule_binary64 F64.norm2 2.5%float [4; 3; 1]%float)
                eq_refl eq_refl) as (k & Hk & _ & Hm).
    rewrite Hm. injection Hk as <-. reflexivity.
  - rewrite (proj1 (truncation_rule_binary64 F64.norm2
                      0x1.6a09e667f3bccp-1%float [1; 1]%float));
      reflexivity.
Defined.

(** ** Moving the quantum-number boundary *)

Lemma insert_as_alter {A} (f : A -> A) (l : list A) (i : nat) (x : A) :
  l !! i = Some x -> <[i := f x]> l = alter f i l.
Proof.
  revert i. induction l as [| y l IH]; intros [| i] H; try discriminate.
  - injection H as ->. reflexivity.
  - cbn. f_equal. apply IH. exact H.
Qed.

Lemma complement_some (t : Z) (l : list Z) :
  complement (Some t) l = Py.ok (map (Z.sub t) l).
Proof. destruct l; reflexivity. Qed.

Lemma flip_qn_ok (s : MatrixProduct) (q : list (list Z)) (t idx : Z) :
  qn s = Some q -> qntot s = Some t -> 0 <= idx < Py.len q ->
  flip_qn idx s = (Py.ok tt, with_qn (Some (alter (map (Z.sub t)) (Z.to_nat idx) q)) s).
Proof.
  intros Hq Ht Hidx. unfold Py.len in Hidx.
  destruct (lookup_lt_is_Some_2 q (Z.to_nat idx)) as [l Hl]; [lia |].
  unfold flip_qn, mbind, get, lift, modify, Py.getitem, Py.setitem, Py.ok.
  cbn beta iota. rewrite Hq. cbn [not_none Py.ok].
  rewrite norm_index_in_range by exact Hidx.
  rewrite Hl, Ht, complement_some. unfold Py.ok.
  rewrite (insert_as_alter (map (Z.sub t)) q _ l Hl). reflexivity.
Qed.

Lemma for_flip_qn (idxs : list Z) :
  forall (s : MatrixProduct) (q : list (list Z)) (t : Z),
    qn s = Some q -> qntot s = Some t ->
    Forall (fun i => 0 <= i < Py.len q) idxs ->
    for_ idxs flip_qn s = (Py.ok tt, with_qn (Some (flipped t idxs q)) s).
Proof.
  induction idxs as [| i idxs IH]; intros s q t Hq Ht Hall.
  - cbn. unfold mret. destruct s; cbn in *. subst. reflexivity.
  - apply Forall_cons in Hall as [Hi Hall].
    cbn [for_]. unfold mbind at 1. rewrite (flip_qn_ok s q t i Hq Ht Hi).
    rewrite (IH _ (alter (map (Z.sub t)) (Z.to_nat i) q) t); try reflexivity.
    + exact Ht.
    + unfold Py.len in *. rewrite length_alter. exact Hall.
Qed.

Lemma flipped_length (t : Z) (idxs : list Z) (q : list (list Z)) :
  length (flipped t idxs q) = length q.
Proof.
  unfold flipped. revert q. induction idxs as [| i idxs IH]; intros q; [reflexivity |].
  cbn [foldl]. rewrite IH. apply length_alter.
Qed.

Lemma flipped_app (t : Z) (l1 l2 : list Z) (q : list (list Z)) :
  flipped t (l1 ++ l2) q = flipped t l2 (flipped t l1 q).
Proof. unfold flipped. apply foldl_app. Qed.

(** Taking the complement twice gives the labels back. *)
Lemma flip_twice (t : Z) (i : nat) (q : list (list Z)) :
  alter (map (Z.sub t)) i (alter (map (Z.sub t)) i q) = q.
Proof.
  rewrite list_alter_alter_eq. apply list_alter_id. intros l. cbn.
  rewrite map_map. rewrite <- (map_id l) at 2. apply map_ext. intros x. lia.
Qed.

Lemma flipped_back (t : Z) (idxs : list Z) :
  forall q, flipped t (reverse idxs) (flipped t idxs q) = q.
Proof.
  induction idxs as [| i idxs IH]; intros q; [reflexivity |].
  rewrite reverse_cons, flipped_app. cbn [flipped foldl].
  fold (flipped t idxs (alter (map (Z.sub t)) (Z.to_nat i) q)).
  rewrite IH. cbn. apply flip_twice.
Qed.

Lemma flipped_forth (t : Z) (idxs : list Z) (q : list (list Z)) :
  flipped t idxs (flipped t (reverse idxs) q) = q.
Proof.
  rewrite <- (reverse_involutive idxs) at 1. apply flipped_back.
Qed.

(** [move_qnidx] from boundary [a] to [dst]: the bonds right of [a] are
    flipped going up, then the bonds right of [dst] going down. *)
Lemma move_qnidx_ok (s : MatrixProduct) (q : list (list Z)) (t a dst : Z) :
  qn s = Some q -> qntot s = Some t -> qnidx s = Some a -> 0 <= a -> 0 <= dst ->
  move_qnidx dst s
  = (Py.ok tt,
     with_qnidx (Some dst)
       (with_qn (Some (flipped t (Py.range (Py.len q - 2) dst (-1))
                         (flipped t (Py.range (a + 1) (Py.len q - 1) 1) q))) s)).
Proof.
  intros Hq Ht Ha Ha0 Hd0.
  assert (Hup : Forall (fun i => 0 <= i < Py.len q) (Py.range (a + 1) (Py.len q - 1) 1)).
  { eapply Forall_impl; [apply range_up_bounds |]. cbn. intros i Hi. lia. }
  set (q1 := flipped t (Py.range (a + 1) (Py.len q - 1) 1) q).
  assert (Hlen : Py.len q1 = Py.len q).
  { unfold Py.len, q1. now rewrite flipped_length. }
  assert (Hdown : Forall (fun i => 0 <= i < Py.len q1) (Py.range (Py.len q1 - 2) dst (-1))).
  { rewrite range_down_up, Forall_reverse.
    eapply Forall_impl; [apply range_up_bounds |]. cbn. intros i Hi. lia. }
  unfold move_qnidx. rewrite bind_get.
  rewrite (bind_lift_ok _ a) by (now rewrite Ha).
  rewrite (bind_lift_ok _ q) by (now rewrite Hq).
  rewrite (bind_ok _ _ _ _ _ (for_flip_qn _ s q t Hq Ht Hup)). fold q1.
  rewrite bind_get. rewrite (bind_lift_ok _ q1) by reflexivity.
  rewrite (bind_ok _ _ _ _ _ (for_flip_qn _ (with_qn (Some q1) s) q1 t eq_refl Ht Hdown)).
  unfold modify. rewrite Hlen. destruct s; reflexivity.
Qed.

(** C3: on a chain with integer labels [q], total [t] and boundary [A],
    [move_qnidx(B)] followed by [move_qnidx(A)], for valid indices [A] and
    [B], returns and leaves the chain as it was: every label vector has its
    original integers and [qnidx] is [A] again. *)
Theorem move_qnidx_round_trip (self : MatrixProduct) (q : list (list Z)) (t A B : Z) :
  qn self = Some q -> qntot self = Some t -> qnidx self = Some A ->
  0 <= A < site_num self -> 0 <= B < site_num self ->
  exists self',
    (do _ <- move_qnidx B; move_qnidx A) self = (Py.ok tt, self')
    /\ qn self' = Some q /\ qnidx self' = Some A /\ self' = self.
Proof.
  intros Hq Ht HA HA0 HB0. exists self.
  rewrite (bind_ok _ _ _ _ _ (move_qnidx_ok self q t A B Hq Ht HA ltac:(lia) ltac:(lia))).
  set (q1 := flipped t _ (flipped t _ q)).
  assert (Hlen : Py.len q1 = Py.len q).
  { unfold Py.len, q1. now rewrite !flipped_length. }
  rewrite (move_qnidx_ok (with_qnidx (Some B) (with_qn (Some q1) self)) q1 t B A
             eq_refl Ht eq_refl) by lia.
  rewrite Hlen. unfold q1.
  rewrite (range_down_up _ B), (range_down_up _ A).
  rewrite flipped_forth, flipped_back.
  destruct self; cbn in *; subst. repeat split; reflexivity.
Qed.

(** Moving the boundary of [labelled] from site 1 to site 0 replaces the
    labels (1, 2) of the middle bond by (2, 1). *)
Example move_qnidx_labelled :
  qn (snd (move_qnidx 0 labelled)) = Some [[0]; [2; 1]; [3]]
  /\ qnidx (snd (move_qnidx 0 labelled)) = Some 0.
Proof. split; reflexivity. Qed.

Lemma move_qnidx_round_trip_witness :
  exists self',
    (do _ <- move_qnidx 0; move_qnidx 1) labelled = (Py.ok tt, self')
    /\ qn self' = Some [[0]; [1; 2]; [3]] /\ qnidx self' = Some 1 /\ self' = labelled.
Proof.
  apply (move_qnidx_round_trip labelled [[0]; [1; 2]; [3]] 3 1 0);
    [reflexivity | reflexivity | reflexivity
    | change (0 <= 1 < 2); lia | change (0 <= 0 < 2); lia].
Defined.

(** ** What a sweep leaves alone: the boundary index and the site count *)

Lemma keeps_mret {A} (a : A) : keeps_boundary (mret a).
Proof. intros s. split; reflexivity. Qed.

Lemma keeps_lift {A} (r : Py.result A) : keeps_boundary (lift r).
Proof. intros s. split; reflexivity. Qed.

Lemma keeps_get : keeps_boundary get.
Proof. intros s. split; reflexivity. Qed.

Lemma keeps_bind {A B} (m : M A) (k : A -> M B) :
  keeps_boundary m -> (forall a, keeps_boundary (k a)) -> keeps_boundary (do x <- m; k x).
Proof.
  intros Hm Hk s. unfold mbind. specialize (Hm s).
  destruct (m s) as [[e | a] s1]; cbn [snd] in *; [exact Hm |].
  destruct (Hk a s1) as [H1 H2]. destruct Hm as [H3 H4]. split; congruence.
Qed.

Lemma keeps_with_qn (q : option (list (list Z))) : keeps_boundary (modify (with_qn q)).
Proof. intros s. split; reflexivity. Qed.

Lemma keeps_for {A} (l : list A) (body : A -> M unit) :
  (forall x, keeps_boundary (body x)) -> keeps_boundary (for_ l body).
Proof.
  intros Hb. induction l as [| x l IH]; cbn [for_].
  - apply keeps_mret.
  - apply keeps_bind; [apply Hb | intros _; exact IH].
Qed.

Ltac keeps_step :=
  match goal with
  | |- keeps_boundary (mbind _ _) => apply keeps_bind; [| intros ?]
  | |- keeps_boundary (lift _) => apply keeps_lift
  | |- keeps_boundary get => apply keeps_get
  | |- keeps_boundary (mret _) => apply keeps_mret
  | |- keeps_boundary (modify (with_qn _)) => apply keeps_with_qn
  | |- keeps_boundary (for_ _ _) => apply keeps_for; intros ?
  | |- keeps_boundary (if ?b then _ else _) => destruct b
  | |- keeps_boundary (match ?x with _ => _ end) => destruct x
  | |- keeps_boundary (let '(_, _) := ?x in _) => destruct x
  end.

Create HintDb keeps.

Ltac keeps := repeat first [keeps_step | solve [auto with keeps]].

Lemma is_left_canon_keeps (s s' : MatrixProduct) :
  qnidx s' = qnidx s -> site_num s' = site_num s -> is_left_canon s' = is_left_canon s.
Proof. unfold is_left_canon. intros -> ->. reflexivity. Qed.

Lemma iter_idx_list_left (s : MatrixProduct) :
  qnidx s = Some (site_num s - 1) ->
  is_left_canon s = true /\ iter_idx_list s = descending (site_num s).
Proof.
  intros H. unfold iter_idx_list, is_left_canon. rewrite H, Z.eqb_refl.
  split; [reflexivity |]. rewrite range_down. unfold descending. do 2 f_equal; lia.
Qed.

Lemma iter_idx_list_right (s : MatrixProduct) :
  qnidx s = Some 0 -> iter_idx_list s = ascending (site_num s).
Proof.
  intros H. unfold iter_idx_list, is_left_canon, ascending. rewrite H.
  destruct (Z.eqb_spec 0 (site_num s - 1)) as [Heq | Hne].
  - rewrite range_down. replace (site_num s - 1) with 0 by lia. reflexivity.
  - rewrite range_up. f_equal. lia.
Qed.

(** After a loop that keeps the boundary, [_switch_domain] is the assignment
    the direction at the start of the sweep selects. *)
Lemma loop_then_switch (m : M unit) (s : MatrixProduct) :
  keeps_boundary m ->
  (do _ <- m; _switch_domain) s
  = (do _ <- m;
     modify (with_qnidx (Some (if is_left_canon s then 0 else site_num s - 1)))) s.
Proof.
  intros Hm. unfold mbind. destruct (Hm s) as [H1 H2].
  destruct (m s) as [[e | []] s1]; [reflexivity |]. cbn [snd] in *.
  unfold _switch_domain. rewrite bind_get.
  rewrite (is_left_canon_keeps s s1 H1 H2), H2.
  destruct (is_left_canon s); reflexivity.
Qed.

Lemma sweep_completed (check : M unit) (visited : list Z) (body : Z -> M unit)
  (target : Z) (s s' : MatrixProduct) :
  sweep check visited body target s = (Py.ok tt, s') -> qnidx s' = Some target.
Proof.
  unfold sweep, mbind, modify.
  destruct (check s) as [[e | []] s1]; [discriminate |].
  destruct (for_ visited body s1) as [[e | []] s2]; [discriminate |].
  intros H. injection H as <-. reflexivity.
Qed.

Section Boundary.

Context {E : Collaborators}.

Lemma keeps_array2mt (array : Np.ndarray) (idx : Z) : keeps_boundary (array2mt array idx).
Proof. unfold array2mt. repeat keeps_step. Qed.

Lemma keeps_getitem (i : Z) : keeps_boundary (__getitem__ i).
Proof. unfold __getitem__. repeat keeps_step. Qed.

Lemma keeps_setitem (key : Z) (array : Np.ndarray) : keeps_boundary (__setitem__ key array).
Proof.
  unfold __setitem__. apply keeps_bind; [apply keeps_array2mt | intros new_mt].
  intros s. rewrite bind_get. unfold mbind, lift, modify.
  destruct (Py.setitem (_mp s) key new_mt) as [e | l] eqn:Hl; cbn [snd].
  - split; reflexivity.
  - split; [reflexivity |]. unfold site_num, Py.len. cbn.
    now rewrite (setitem_length _ _ _ _ Hl).
Qed.

Lemma keeps_set_qn_at (idx : Z) (labels : list Z) : keeps_boundary (set_qn_at idx labels).
Proof. unfold set_qn_at. repeat keeps_step. Qed.

#[local] Hint Resolve keeps_array2mt keeps_getitem keeps_setitem keeps_set_qn_at : keeps.

Lemma keeps_update_ms idx u vt sigma qnlset qnrset m_trunc :
  keeps_boundary (_update_ms idx u vt sigma qnlset qnrset m_trunc).
Proof. unfold _update_ms. keeps. Qed.

Lemma keeps_get_big_qn (idx : Z) : keeps_boundary (_get_big_qn idx).
Proof. unfold _get_big_qn. keeps. Qed.

Lemma keeps_combined (idx : Z) : keeps_boundary (combined idx).
Proof. unfold combined. keeps. Qed.

#[local] Hint Resolve keeps_update_ms keeps_get_big_qn keeps_combined : keeps.

Lemma keeps_compress_site (system : string) (idx : Z) :
  keeps_boundary (compress_site system idx).
Proof. unfold compress_site. keeps. Qed.

Lemma keeps_canonicalise_site (idx : Z) : keeps_boundary (canonicalise_site idx).
Proof. unfold canonicalise_site. keeps. Qed.

Lemma keeps_ensure_canonical (cc : bool) : keeps_boundary (ensure_canonical cc).
Proof. unfold ensure_canonical. keeps. Qed.

(** ** Sweep order *)

Lemma compress_unfold (cc : bool) (s : MatrixProduct) :
  compress cc s
  = sweep (ensure_canonical cc) (iter_idx_list s) (compress_site (system_of s))
      (if is_left_canon s then 0 else site_num s - 1) s.
Proof.
  unfold compress, sweep.
  destruct (keeps_ensure_canonical cc s) as [H1 H2].
  destruct (ensure_canonical cc s) as [[e | []] s1] eqn:Hc; cbn [snd] in *.
  { rewrite !(bind_raise _ _ _ _ _ Hc). reflexivity. }
  rewrite !(bind_ok _ _ _ _ _ Hc). rewrite bind_get.
  assert (Hl : is_left_canon s1 = is_left_canon s) by now apply is_left_canon_keeps.
  assert (Hi : iter_idx_list s1 = iter_idx_list s).
  { unfold iter_idx_list. now rewrite Hl, H2. }
  unfold system_of. rewrite Hi, Hl. rewrite loop_then_switch.
  - rewrite Hl, H2. reflexivity.
  - apply keeps_for. intros idx. apply keeps_compress_site.
Qed.

Lemma canonicalise_unfold (s : MatrixProduct) :
  canonicalise s
  = sweep (mret tt) (iter_idx_list s) canonicalise_site
      (if is_left_canon s then 0 else site_num s - 1) s.
Proof.
  unfold canonicalise, sweep. rewrite bind_get, bind_mret.
  apply loop_then_switch, keeps_for. intros idx. apply keeps_canonicalise_site.
Qed.

(** C1: with [n] sites and [qnidx = n - 1] (left-canonical), [compress] and
    [canonicalise] run their loop body at the indices [n-1, ..., 1] in this
    order and then set [qnidx] to 0, so that [qnidx] is 0 whenever they
    return; with [qnidx = 0] (right-canonical) they run it at [0, ..., n-2]
    in this order and then set [qnidx] to [n - 1]. *)
Theorem sweep_direction (check_canonical : bool) (self : MatrixProduct) :
  let n := site_num self in
  (qnidx self = Some (n - 1) ->
   compress check_canonical self
   = sweep (ensure_canonical check_canonical) (descending n) (compress_site "R") 0 self
   /\ canonicalise self = sweep (mret tt) (descending n) canonicalise_site 0 self
   /\ forall self',
        compress check_canonical self = (Py.ok tt, self')
        \/ canonicalise self = (Py.ok tt, self') ->
        qnidx self' = Some 0)
  /\ (qnidx self = Some 0 ->
      compress check_canonical self
      = sweep (ensure_canonical check_canonical) (ascending n)
          (compress_site (system_of self)) (n - 1) self
      /\ canonicalise self = sweep (mret tt) (ascending n) canonicalise_site (n - 1) self
      /\ forall self',
           compress check_canonical self = (Py.ok tt, self')
           \/ canonicalise self = (Py.ok tt, self') ->
           qnidx self' = Some (n - 1)).
Proof.
  intros n. split; intros Hq.
  - destruct (iter_idx_list_left self Hq) as [Hl Hi].
    assert (Hc := compress_unfold check_canonical self).
    assert (Hk := canonicalise_unfold self).
    unfold system_of in Hc. rewrite Hl, Hi in Hc, Hk. fold n in Hc, Hk.
    repeat split; [exact Hc | exact Hk |].
    intros self' [H | H]; [rewrite Hc in H | rewrite Hk in H];
      exact (sweep_completed _ _ _ _ _ _ H).
  - assert (Hi := iter_idx_list_right self Hq).
    assert (Ht : (if is_left_canon self then 0 else site_num self - 1) = n - 1).
    { unfold is_left_canon. rewrite Hq. fold n.
      destruct (Z.eqb_spec 0 (n - 1)); lia. }
    assert (Hc := compress_unfold check_canonical self).
    assert (Hk := canonicalise_unfold self).
    rewrite Hi, Ht in Hc, Hk. fold n in Hc, Hk.
    repeat split; [exact Hc | exact Hk |].
    intros self' [H | H]; [rewrite Hc in H | rewrite Hk in H];
      exact (sweep_completed _ _ _ _ _ _ H).
Qed.

End Boundary.

(** ** Running the sample chains *)

Lemma norm_two_ones : Np.norm [1%R; 1%R] = sqrt 2.
Proof. unfold Np.norm. cbn. f_equal. lra. Qed.

Lemma sqrt_2_bounds : (10 / 9 < sqrt 2 < 1000)%R.
Proof.
  split.
  - rewrite <- (sqrt_square (10 / 9)) by lra. apply sqrt_lt_1_alt. lra.
  - rewrite <- (sqrt_square 1000) by lra. apply sqrt_lt_1_alt. lra.
Qed.

(** Two equal singular values are 0.707 each after normalisation. *)
Lemma m_trunc_strict : m_trunc_of (9 / 10) [1%R; 1%R] = 0.
Proof.
  unfold m_trunc_of. destruct (Rlt_dec (9 / 10) 1) as [_ | H]; [| lra].
  rewrite norm_two_ones. destruct sqrt_2_bounds as [Hlo Hhi].
  assert (Hle : (1 / sqrt 2 <= 9 / 10)%R).
  { apply Rmult_le_reg_r with (sqrt 2); [lra |]. field_simplify; lra. }
  cbn [Np.divide Np.greater map].
  destruct (Rgt_dec (1 / sqrt 2) (9 / 10)); [lra | reflexivity].
Qed.

Lemma m_trunc_loose : m_trunc_of (1 / 1000) [1%R; 1%R] = 2.
Proof.
  unfold m_trunc_of. destruct (Rlt_dec (1 / 1000) 1) as [_ | H]; [| lra].
  rewrite norm_two_ones. destruct sqrt_2_bounds as [Hlo Hhi].
  assert (Hgt : (1 / sqrt 2 > 1 / 1000)%R).
  { apply Rmult_lt_reg_r with (sqrt 2); [lra |]. field_simplify; lra. }
  cbn [Np.divide Np.greater map].
  destruct (Rgt_dec (1 / sqrt 2) (1 / 1000)); [reflexivity | lra].
Qed.

Ltac decide_reals :=
  repeat match goal with
    | |- context [Req_dec_T ?a ?b] =>
        destruct (Req_dec_T a b); [try (exfalso; lra) | try (exfalso; lra)]
    | |- context [Rlt_dec ?a ?b] =>
        destruct (Rlt_dec a b); [try (exfalso; lra) | try (exfalso; lra)]
    end.

Ltac run :=
  cbv -[Req_dec_T Rlt_dec Rgt_dec Rle_dec IZR Rdiv Rplus Rmult Rminus Ropp Rinv sqrt
        Zfloor Zceil m_trunc_of].

(** [compress] on the left-canonical chain [two_sites] visits site 1,
    keeps both singular values and returns with the boundary at site 0. *)
Lemma compress_two_sites :
  exists self', compress (E := sample) false two_sites = (Py.ok tt, self').
Proof.
  eexists. run. decide_reals. rewrite m_trunc_loose. run. decide_reals. reflexivity.
Qed.

Lemma sweep_direction_witness :
  qnidx two_sites = Some (site_num two_sites - 1)
  /\ descending (site_num two_sites) = [1]
  /\ exists self',
       compress (E := sample) false two_sites = (Py.ok tt, self')
       /\ qnidx self' = Some 0.
Proof.
  split; [reflexivity |]. split; [reflexivity |].
  destruct compress_two_sites as [self' Hrun]. exists self'. split; [exact Hrun |].
  destruct (sweep_direction (E := sample) false two_sites) as [Hleft _].
  apply Hleft; [reflexivity | left; exact Hrun].
Defined.

(** ** A kept rank of zero *)

Lemma reads_bind {A B} (m : M A) (k : A -> M B) :
  reads_only m -> (forall a, reads_only (k a)) -> reads_only (do x <- m; k x).
Proof.
  intros Hm Hk s. unfold mbind. specialize (Hm s).
  destruct (m s) as [[e | a] s1]; cbn [snd] in *; [exact Hm |].
  rewrite Hk. exact Hm.
Qed.

Lemma outcome {A} (m : M A) (s : MatrixProduct) (r : Py.result A) :
  reads_only m -> fst (m s) = r -> m s = (r, s).
Proof. intros Hm <-. rewrite <- (Hm s) at 3. now destruct (m s). Qed.

Ltac reads_step :=
  match goal with
  | |- reads_only (mbind _ _) => apply reads_bind; [| intros ?]
  | |- reads_only (lift _) => intros ?; reflexivity
  | |- reads_only get => intros ?; reflexivity
  | |- reads_only (mret _) => intros ?; reflexivity
  | |- reads_only (if ?b then _ else _) => destruct b
  | |- reads_only (match ?x with _ => _ end) => destruct x
  end.

Section ZeroRank.

Context {E : Collaborators}.

Lemma reads_ensure_canonical (cc : bool) : reads_only (ensure_canonical cc).
Proof. unfold ensure_canonical. repeat reads_step. Qed.

Lemma reads_kept_rank_at (system : string) (idx : Z) :
  reads_only (kept_rank_at system idx).
Proof.
  unfold kept_rank_at, spectrum_at, combined, _get_big_qn, __getitem__.
  repeat reads_step.
Qed.

(** At a site where the rule yields 0, the body of the loop stops at one of
    its assertions, before [_update_ms]. *)
Lemma compress_site_zero_rank (system : string) (idx : Z) (s s' : MatrixProduct) :
  kept_rank_at system idx s = (Py.ok 0, s') ->
  compress_site system idx s = (Py.raise Py.AssertionError, s').
Proof.
  intros H. unfold kept_rank_at in H.
  apply bind_ok_inv in H as (sigma & s3 & Hs & H).
  rewrite bind_get in H. unfold mret in H. injection H as Hm <-.
  unfold spectrum_at in Hs.
  apply bind_ok_inv in Hs as (mt & s1 & Hmt & Hs).
  apply bind_ok_inv in Hs as (big & s2 & Hbig & Hs).
  rewrite bind_get in Hs.
  apply bind_ok_inv in Hs as (t & s2' & Ht & Hs).
  unfold lift in Ht. injection Ht as Ht <-.
  destruct t as [u s1' qnl v sigma' qnr | u qnl v qnr]; [| discriminate].
  unfold mret in Hs. injection Hs as -> <-.
  unfold compress_site.
  rewrite (bind_ok _ _ _ _ _ Hmt), (bind_ok _ _ _ _ _ Hbig), bind_get.
  rewrite (bind_lift_ok _ _ _ _ Ht). rewrite (bind_lift_ok _ _ _ _ eq_refl).
  cbn beta iota. rewrite Hm.
  destruct (Py.assert (_ && _)) as [e | []] eqn:Ha.
  - unfold Py.assert in Ha. destruct (_ && _); [discriminate |].
    injection Ha as <-. reflexivity.
  - rewrite (bind_lift_ok _ _ _ _ eq_refl). reflexivity.
Qed.

(** C7: when the canonical check passes, the sites before [idx] are
    compressed without error, and at [idx] the truncation rule yields a
    kept rank of 0, [compress] raises [AssertionError]; the chain is as the
    earlier sites left it, so nothing was written with a rank clamped
    to 1. *)
Theorem zero_rank_raises (check_canonical : bool) (self self1 : MatrixProduct)
  (pre post : list Z) (idx : Z) :
  fst (ensure_canonical check_canonical self) = Py.ok tt ->
  iter_idx_list self = pre ++ idx :: post ->
  for_ pre (compress_site (system_of self)) self = (Py.ok tt, self1) ->
  fst (kept_rank_at (system_of self) idx self1) = Py.ok 0 ->
  compress check_canonical self = (Py.raise Py.AssertionError, self1).
Proof.
  intros Hc Hi Hpre Hk. unfold compress.
  apply (outcome _ _ _ (reads_ensure_canonical _)) in Hc.
  apply (outcome _ _ _ (reads_kept_rank_at _ _)) in Hk.
  rewrite (bind_ok _ _ _ _ _ Hc), bind_get. fold (system_of self). rewrite Hi.
  apply bind_raise. eapply for_stops; [exact Hpre |].
  apply compress_site_zero_rank, Hk.
Qed.

End ZeroRank.

Lemma kept_rank_strict : fst (kept_rank_at (E := sample) "R" 1 strict_chain) = Py.ok 0.
Proof. run. decide_reals. now rewrite m_trunc_strict. Qed.

(** With threshold 0.9 both normalised singular values of site 1 of
    [strict_chain] are below the threshold. *)
Lemma zero_rank_raises_witness :
  compress (E := sample) true strict_chain = (Py.raise Py.AssertionError, strict_chain).
Proof.
  apply (zero_rank_raises true strict_chain strict_chain [] [] 1);
    [reflexivity | reflexivity | reflexivity | exact kept_rank_strict].
Defined.

(** ** The dot product *)

Lemma columns_length (c : nat) (rows : list (list Np.complex)) :
  length (Np.columns c rows) = c
  /\ Forall (fun col => length col = length rows) (Np.columns c rows).
Proof.
  revert rows. induction c as [| c IH]; intros rows; cbn [Np.columns].
  - split; [reflexivity | constructor].
  - destruct (IH (map (drop 1) rows)) as [H1 H2]. split.
    + cbn. now rewrite H1.
    + constructor; [apply length_map |].
      rewrite length_map in H2. exact H2.
Qed.

Lemma concat_length_uniform {A} (n : nat) (ls : list (list A)) :
  Forall (fun l => length l = n) ls -> length (concat ls) = (length ls * n)%nat.
Proof.
  induction 1 as [| l ls Hl _ IH]; [reflexivity |].
  cbn. rewrite length_app, IH, Hl. reflexivity.
Qed.

Lemma chunks_length {A} (cols rows : nat) (l : list A) :
  length (Np.chunks cols rows l) = rows.
Proof.
  revert l. induction rows as [| r IH]; intros l; [reflexivity |].
  cbn. now rewrite IH.
Qed.

Lemma reverse_axes_length (sh : list nat) (l : list Np.complex) :
  sh <> [] -> length (Np.reverse_axes sh l) = Np.prod sh.
Proof.
  destruct sh as [| s0 rest]; [congruence | intros _].
  cbn [Np.reverse_axes].
  destruct (columns_length (Np.prod rest)
              (map (Np.reverse_axes rest) (Np.chunks (Np.prod rest) s0 l))) as [H1 H2].
  rewrite (concat_length_uniform _ _ H2), H1, length_map, chunks_length.
  change (Np.prod (s0 :: rest)) with (s0 * Np.prod rest)%nat. lia.
Qed.

(** One round of the loop on a chained pair. *)
Lemma dot_step_chained (e0 : Np.ndarray) (mt1 mt2 : Matrix) (b1 b2 r1 r2 : nat)
  (ps : list nat) :
  Np.shape e0 = [b1; b2] ->
  mt_shape mt1 = b1 :: ps ++ [r1] -> mt_shape mt2 = b2 :: ps ++ [r2] ->
  (length ps = 1 \/ length ps = 2)%nat ->
  exists e, dot_step e0 mt1 mt2 = Py.ok e
            /\ Np.shape e = [r1; r2] /\ length (Np.data e) = (r1 * r2)%nat.
Proof.
  unfold mt_shape. intros He H1 H2 Hps.
  unfold dot_step, Np.tensordot1. rewrite He, H2. cbn [rev app].
  rewrite Nat.eqb_refl. cbn [Py.rbind Py.ok].
  unfold Np.ndim, Py.len. rewrite H1.
  destruct Hps as [Hps | Hps].
  - destruct ps as [| p [| ? ?]]; try discriminate. cbn [app length Z.of_nat].
    change (Z.of_nat 3 =? 3) with true. cbn match.
    unfold Np.tensordot_front. cbn [Np.shape]. rewrite H1.
    cbn [Np.front_axes_check app]. rewrite !Nat.eqb_refl. cbn [Py.rbind Py.ok drop].
    eexists. split; [reflexivity |]. split; [reflexivity |].
    unfold Np.T. cbn [Np.data Np.shape]. rewrite reverse_axes_length by discriminate.
    cbn. lia.
  - destruct ps as [| p [| q [| ? ?]]]; try discriminate. cbn [app length Z.of_nat].
    change (Z.of_nat 4 =? 3) with false. change (Z.of_nat 4 =? 4) with true. cbn match.
    unfold Np.tensordot_front. cbn [Np.shape]. rewrite H1.
    cbn [Np.front_axes_check app]. rewrite !Nat.eqb_refl. cbn [Py.rbind Py.ok drop].
    eexists. split; [reflexivity |]. split; [reflexivity |].
    unfold Np.T. cbn [Np.data Np.shape]. rewrite reverse_axes_length by discriminate.
    cbn. lia.
Qed.

Lemma dot_loop_chained (pairs : list (Matrix * Matrix)) (b1 b2 c1 c2 : nat) :
  chained b1 b2 pairs c1 c2 ->
  forall e0, Np.shape e0 = [b1; b2] -> length (Np.data e0) = (b1 * b2)%nat ->
  exists e, dot_loop e0 pairs = Py.ok e
            /\ Np.shape e = [c1; c2] /\ length (Np.data e) = (c1 * c2)%nat.
Proof.
  induction 1 as [b1 b2 | b1 b2 p r1 r2 c1 c2 mt1 mt2 rest H1 H2 _ IH
                 | b1 b2 p q r1 r2 c1 c2 mt1 mt2 rest H1 H2 _ IH]; intros e0 He Hd.
  - exists e0. split; [reflexivity | split; assumption].
  - destruct (dot_step_chained e0 mt1 mt2 b1 b2 r1 r2 [p] He H1 H2 ltac:(now left))
      as (e & Hs & Hsh & Hlen).
    cbn [dot_loop]. rewrite Hs. cbn [Py.rbind Py.ok]. now apply IH.
  - destruct (dot_step_chained e0 mt1 mt2 b1 b2 r1 r2 [p; q] He H1 H2 ltac:(now right))
      as (e & Hs & Hsh & Hlen).
    cbn [dot_loop]. rewrite Hs. cbn [Py.rbind Py.ok]. now apply IH.
Qed.

Lemma dot_step_bad_rank (e0 : Np.ndarray) (mt1 mt2 : Matrix) :
  Np.ndim (arr mt1) <> 3 -> Np.ndim (arr mt1) <> 4 -> Py.raises (dot_step e0 mt1 mt2).
Proof.
  intros H3 H4. unfold dot_step.
  destruct (Np.tensordot1 e0 (arr mt2)) as [e | e1]; [now exists e |].
  cbn [Py.rbind].
  destruct (Z.eqb_spec (Np.ndim (arr mt1)) 3); [contradiction |].
  destruct (Z.eqb_spec (Np.ndim (arr mt1)) 4); [contradiction |].
  now exists Py.AssertionError.
Qed.

Lemma dot_loop_bad_rank (pairs : list (Matrix * Matrix)) (i : nat) (mt1 mt2 : Matrix) :
  pairs !! i = Some (mt1, mt2) ->
  Np.ndim (arr mt1) <> 3 -> Np.ndim (arr mt1) <> 4 ->
  forall e0, Py.raises (dot_loop e0 pairs).
Proof.
  revert i. induction pairs as [| [m1 m2] pairs IH]; intros i Hi H3 H4 e0;
    [discriminate |].
  cbn [dot_loop]. destruct i as [| i].
  - injection Hi as -> ->.
    destruct (dot_step_bad_rank e0 mt1 mt2 H3 H4) as [e He]. rewrite He. now exists e.
  - destruct (dot_step e0 m1 m2) as [e | e1]; [now exists e |].
    cbn [Py.rbind]. exact (IH i Hi H3 H4 e1).
Qed.

Lemma zip_lookup {A B} (l1 : list A) (l2 : list B) (i : nat) (a : A) :
  l1 !! i = Some a -> length l1 = length l2 ->
  exists b, Py.zip l1 l2 !! i = Some (a, b).
Proof.
  revert l2 i. induction l1 as [| x l1 IH]; intros [| y l2] i Hi Hlen; try discriminate.
  destruct i as [| i]; cbn in *.
  - injection Hi as ->. eauto.
  - apply IH; [exact Hi | lia].
Qed.

(** C9, as the code has it: [dot] raises [AssertionError] when the chains
    differ in length, and raises when a tensor of [self] has a rank other
    than 3 or 4; the ranks of a pair are not compared.  On chains of equal
    length whose pairs are [chained] from bonds of size 1 to bonds of
    positive size, [dot] returns a scalar: entry [[0, 0]] of the boundary
    tensor the loop accumulates from left to right. *)
Theorem dot_outcomes (self other : MatrixProduct) :
  (site_num self <> site_num other -> dot self other = Py.raise Py.AssertionError)
  /\ (site_num self = site_num other ->
      (exists i mt1, _mp self !! i = Some mt1
                     /\ Np.ndim (arr mt1) <> 3 /\ Np.ndim (arr mt1) <> 4) ->
      Py.raises (dot self other))
  /\ (site_num self = site_num other ->
      forall c1 c2, chained 1 1 (Py.zip (_mp self) (_mp other)) (S c1) (S c2) ->
      exists e x,
        dot_loop Np.eye11 (Py.zip (_mp self) (_mp other)) = Py.ok e
        /\ Np.data e !! 0%nat = Some x
        /\ dot self other = Py.ok (Np.mkArr (Np.dt e) [] [x])).
Proof.
  unfold dot. repeat split.
  - intros Hne. destruct (Z.eqb_spec (site_num self) (site_num other)); [contradiction |].
    reflexivity.
  - intros Heq (i & mt1 & Hi & H3 & H4). rewrite Heq, Z.eqb_refl. cbn [Py.assert Py.rbind Py.ok].
    unfold site_num, Py.len in Heq.
    destruct (zip_lookup _ (_mp other) i mt1 Hi ltac:(lia)) as [mt2 Hz].
    destruct (dot_loop_bad_rank _ i mt1 mt2 Hz H3 H4 Np.eye11) as [e He].
    rewrite He. now exists e.
  - intros Heq c1 c2 Hch. rewrite Heq, Z.eqb_refl. cbn [Py.assert Py.rbind Py.ok].
    destruct (dot_loop_chained _ _ _ _ _ Hch Np.eye11 eq_refl eq_refl)
      as (e & He & Hsh & Hlen).
    destruct (Np.data e) as [| x d] eqn:Hd; [cbn in Hlen; lia |].
    exists e, x. rewrite He, Hd. cbn [Py.rbind Py.ok]. repeat split.
    unfold Np.getitem00. rewrite Hsh, Hd. reflexivity.
Qed.

(** A rank-3 tensor of shape (1, 2, 1) against a rank-4 tensor of shape
    (1, 2, 2, 1): [dot] raises nothing and returns an array of shape (2). *)
Lemma dot_rank_mismatch_returns :
  _mp mps1 = [site3] /\ _mp mpo1 = [site4]
  /\ Np.ndim (arr site3) = 3 /\ Np.ndim (arr site4) = 4
  /\ exists a, dot mps1 mpo1 = Py.ok a /\ Np.shape a = [2%nat].
Proof.
  repeat split. eexists. split; reflexivity.
Qed.

(** A one-site state against itself. *)
Lemma dot_outcomes_witness :
  exists x, dot mps1 mps1 = Py.ok (Np.mkArr Np.float64 [] [x]).
Proof.
  destruct (dot_outcomes mps1 mps1) as (_ & _ & Hok).
  destruct (Hok eq_refl 0%nat 0%nat) as (e & x & Hloop & _ & Hdot).
  { apply (chained_rank3 1 1 2 1 1 1 1); [reflexivity | reflexivity | constructor]. }
  exists x. rewrite Hdot. f_equal. f_equal.
  cbn in Hloop. injection Hloop as <-. reflexivity.
Defined.

(** ** Scaling *)

Section Scale.

Context {E : Collaborators}.

Lemma array2mt_ok (array : Np.ndarray) (idx : Z) (s : MatrixProduct) :
  subclass_total -> 0 <= idx < site_num s ->
  exists new_mt, array2mt array idx s = (Py.ok new_mt, s)
                 /\ arr new_mt = Np.astype (dtype s) array.
Proof.
  intros [Hmpo Hsq] Hidx. unfold array2mt. rewrite bind_get.
  destruct (Hmpo s) as [b Hb]. rewrite (bind_lift_ok _ _ _ _ Hb).
  destruct (use_dummy_qn s).
  - eexists. split; reflexivity.
  - destruct (Hsq s idx Hidx) as [l Hl]. rewrite (bind_lift_ok _ _ _ _ Hl).
    eexists. split; reflexivity.
Qed.

Lemma setitem_ok (key : Z) (array : Np.ndarray) (s : MatrixProduct) :
  subclass_total -> 0 <= key < site_num s ->
  exists new_mt,
    __setitem__ key array s = (Py.ok tt, with_mp (<[Z.to_nat key := new_mt]> (_mp s)) s)
    /\ arr new_mt = Np.astype (dtype s) array.
Proof.
  intros Ht Hkey. destruct (array2mt_ok array key s Ht Hkey) as (new_mt & Hn & Harr).
  exists new_mt. split; [| exact Harr].
  unfold __setitem__. rewrite (bind_ok _ _ _ _ _ Hn), bind_get.
  unfold Py.setitem. rewrite norm_index_in_range by exact Hkey. reflexivity.
Qed.

Lemma getitem_ok (i : Z) (s : MatrixProduct) :
  0 <= i < site_num s ->
  exists mt, _mp s !! Z.to_nat i = Some mt /\ __getitem__ i s = (Py.ok mt, s).
Proof.
  intros Hi. unfold site_num, Py.len in Hi.
  destruct (lookup_lt_is_Some_2 (_mp s) (Z.to_nat i)) as [mt Hmt]; [lia |].
  exists mt. split; [exact Hmt |].
  unfold __getitem__. rewrite bind_get. unfold lift, Py.getitem.
  rewrite norm_index_in_range by exact Hi. now rewrite Hmt.
Qed.

Lemma astype_idem (d : Np.dtype) (a : Np.ndarray) :
  Np.astype d (Np.astype d a) = Np.astype d a.
Proof.
  destruct d; cbn; [| reflexivity].
  rewrite map_map. reflexivity.
Qed.

Lemma cast_loop (len : nat) :
  subclass_total ->
  forall (a : nat) (s : MatrixProduct),
    (a + len)%nat = length (_mp s) ->
    exists s',
      for_ (seqZ (Z.of_nat a) (Z.of_nat len))
        (fun i => do mt <- __getitem__ i; do self <- get;
                  __setitem__ i (Np.astype (dtype self) (arr mt))) s
      = (Py.ok tt, s')
      /\ cast_from a s s'.
Proof.
  intros Ht. induction len as [| len IH]; intros a s Hlen.
  - exists s. split; [reflexivity |]. repeat split. intros j mt Hj.
    exists mt. split; [exact Hj |].
    apply lookup_lt_Some in Hj. destruct (decide (a <= j)%nat); [lia | reflexivity].
  - rewrite seqZ_cons by lia. cbn [for_].
    assert (Ha : 0 <= Z.of_nat a < site_num s) by (unfold site_num, Py.len; lia).
    destruct (getitem_ok _ s Ha) as (mt_a & Hmt_a & Hget).
    destruct (setitem_ok (Z.of_nat a) (Np.astype (dtype s) (arr mt_a)) s Ht Ha)
      as (new_mt & Hset & Harr).
    rewrite Nat2Z.id in Hmt_a, Hset.
    set (s1 := with_mp (<[a := new_mt]> (_mp s)) s) in *.
    destruct (IH (S a) s1) as (s' & Hfor & Hd & Hq & Hn & Hs').
    { unfold s1. cbn. rewrite length_insert. lia. }
    exists s'. split.
    + erewrite bind_ok; [| rewrite (bind_ok _ _ _ _ _ Hget), bind_get; exact Hset].
      replace (Z.succ (Z.of_nat a)) with (Z.of_nat (S a)) by lia.
      replace (Z.pred (Z.of_nat (S len))) with (Z.of_nat len) by lia.
      exact Hfor.
    + repeat split; [exact Hd | exact Hq | |].
      { rewrite Hn. unfold s1, site_num, Py.len. cbn. now rewrite length_insert. }
      intros j mt Hj. destruct (decide (j = a)) as [-> | Hne].
      * destruct (Hs' a new_mt) as (mt' & Hl & Hmt').
        { unfold s1. cbn. apply list_lookup_insert_eq. now apply lookup_lt_Some in Hj. }
        exists mt'. split; [exact Hl |].
        destruct (decide (S a <= a)%nat); [lia |].
        destruct (decide (a <= a)%nat); [| lia].
        rewrite Hmt', Harr, astype_idem. congruence.
      * destruct (Hs' j mt) as (mt' & Hl & Hmt').
        { unfold s1. cbn. rewrite list_lookup_insert_ne by congruence. exact Hj. }
        exists mt'. split; [exact Hl |]. rewrite Hmt'.
        destruct (decide (S a <= j)%nat), (decide (a <= j)%nat); try lia; reflexivity.
Qed.

Lemma to_complex_body_ok (s : MatrixProduct) :
  subclass_total ->
  exists s', to_complex_body s = (Py.ok tt, s')
             /\ cast_from 0 (with_dtype Np.complex128 s) s'.
Proof.
  intros Ht. unfold to_complex_body, map_sites. rewrite bind_modify, bind_get.
  rewrite range_up, Z.sub_0_r. unfold site_num, Py.len.
  apply (cast_loop _ Ht 0%nat (with_dtype Np.complex128 s)). reflexivity.
Qed.



End Scale.

Lemma sample_total : subclass_total (E := sample).
Proof. split; intros; eexists; reflexivity. Qed.


(** ** Equality of chains *)

Section Equality.

Context {E : Collaborators}.

Lemma eq_loop_all_close (pairs : list (Matrix * Matrix)) :
  Forall (fun p => allclose (fst p) (snd p) = Py.ok true) pairs ->
  eq_loop pairs = Py.ok true.
Proof.
  induction 1 as [| [m1 m2] pairs Hp _ IH]; [reflexivity |].
  cbn [eq_loop fst snd] in *. rewrite Hp. exact IH.
Qed.

Lemma zip_lookup_both {A B} (l1 : list A) (l2 : list B) (i : nat) (a : A) (b : B) :
  Py.zip l1 l2 !! i = Some (a, b) -> l1 !! i = Some a /\ l2 !! i = Some b.
Proof.
  revert l2 i. induction l1 as [| x l1 IH]; intros [| y l2] i H; try discriminate.
  destruct i as [| i]; cbn in *.
  - injection H as -> ->. split; reflexivity.
  - now apply IH.
Qed.

Lemma eq_loop_stops (pre post : list (Matrix * Matrix)) (m1 m2 : Matrix) :
  Forall (fun p => allclose (fst p) (snd p) = Py.ok true) pre ->
  allclose m1 m2 = Py.ok false ->
  eq_loop (pre ++ (m1, m2) :: post) = Py.ok false.
Proof.
  intros Hpre Hd. induction Hpre as [| [a b] pre Hp _ IH].
  - cbn. now rewrite Hd.
  - cbn [app eq_loop fst snd] in *. rewrite Hp. exact IH.
Qed.

Lemma eq_loop_true_inv (pairs : list (Matrix * Matrix)) :
  eq_loop pairs = Py.ok true ->
  Forall (fun p => allclose (fst p) (snd p) = Py.ok true) pairs.
Proof.
  induction pairs as [| [m1 m2] pairs IH]; [constructor |].
  cbn [eq_loop]. destruct (allclose m1 m2) as [e | [|]] eqn:Hc; cbn.
  - discriminate.
  - intros H. constructor; [exact Hc | exact (IH H)].
  - discriminate.
Qed.

Lemma zip_lookup_pair {A B} (l1 : list A) (l2 : list B) (i : nat) (a : A) (b : B) :
  l1 !! i = Some a -> l2 !! i = Some b -> Py.zip l1 l2 !! i = Some (a, b).
Proof.
  revert l2 i. induction l1 as [| x l1 IH]; intros [| y l2] [| i] H1 H2;
    try discriminate; cbn in *.
  - congruence.
  - now apply IH.
Qed.

(** C10: [__eq__] compares the tensors of the two chains position by
    position as far as both chains have a tensor, and no further.  It
    returns [True] exactly when [np.allclose] holds at each of these
    positions, whatever the two site counts are, and [False] when
    [np.allclose] fails at one of them and holds at those before it; a chain
    without sites is equal to every chain, on either side. *)
Theorem eq_compares_common_prefix (self other : MatrixProduct) :
  ((forall i m1 m2, _mp self !! i = Some m1 -> _mp other !! i = Some m2 ->
                    allclose m1 m2 = Py.ok true) ->
   __eq__ self other = Py.ok true)
  /\ (__eq__ self other = Py.ok true ->
      forall i m1 m2, _mp self !! i = Some m1 -> _mp other !! i = Some m2 ->
                      allclose m1 m2 = Py.ok true)
  /\ (forall i m1 m2,
        _mp self !! i = Some m1 -> _mp other !! i = Some m2 ->
        allclose m1 m2 = Py.ok false ->
        (forall j a b, (j < i)%nat -> _mp self !! j = Some a -> _mp other !! j = Some b ->
                       allclose a b = Py.ok true) ->
        __eq__ self other = Py.ok false)
  /\ (_mp self = [] -> __eq__ self other = Py.ok true)
  /\ (_mp other = [] -> __eq__ self other = Py.ok true).
Proof.
  unfold __eq__. split; [| split; [| split; [| split]]].
  - intros H. apply eq_loop_all_close, Forall_lookup. intros i [m1 m2] Hi.
    destruct (zip_lookup_both _ _ _ _ _ Hi) as [H1 H2]. exact (H i m1 m2 H1 H2).
  - intros H i m1 m2 H1 H2. apply eq_loop_true_inv in H.
    rewrite Forall_lookup in H.
    exact (H i (m1, m2) (zip_lookup_pair _ _ _ _ _ H1 H2)).
  - intros i m1 m2 H1 H2 Hd Hpre.
    rewrite <- (take_drop_middle _ i (m1, m2) (zip_lookup_pair _ _ _ _ _ H1 H2)).
    apply eq_loop_stops; [| exact Hd].
    apply Forall_lookup. intros j [a b] Hj.
    apply lookup_take_Some in Hj as [Hj' Hlt].
    destruct (zip_lookup_both _ _ _ _ _ Hj') as [Ha Hb].
    exact (Hpre j a b Hlt Ha Hb).
  - intros ->. reflexivity.
  - intros ->. destruct (_mp self); reflexivity.
Qed.

End Equality.

Lemma same_array_site3 : same_array site3 site3 = Py.ok true.
Proof.
  unfold same_array. destruct (decide _) as [_ | Hne]; [| congruence].
  run. decide_reals. reflexivity.
Qed.

Lemma same_array_differs : same_array site3 site3_other = Py.ok false.
Proof.
  unfold same_array.
  destruct (decide _) as [_ | Hne]; [| exfalso; apply Hne; reflexivity].
  run. decide_reals. reflexivity.
Qed.

(** A chain of one site against a chain of two sites whose first tensor is
    the same, against the empty chain, and against a chain of one site with
    another tensor. *)
Lemma eq_compares_common_prefix_witness :
  site_num mps1 = 1 /\ site_num mps2 = 2 /\ site_num __init__ = 0
  /\ __eq__ (E := sample) mps1 mps2 = Py.ok true
  /\ __eq__ (E := sample) __init__ mps2 = Py.ok true
  /\ __eq__ (E := sample) mps2 __init__ = Py.ok true
  /\ __eq__ (E := sample) mps1 mps1_other = Py.ok false
  /\ allclose (Collaborators := sample) site3 site3 = Py.ok true.
Proof.
  split; [reflexivity |]. split; [reflexivity |]. split; [reflexivity |].
  assert (Htrue : __eq__ (E := sample) mps1 mps2 = Py.ok true).
  { apply (proj1 (eq_compares_common_prefix (E := sample) mps1 mps2)).
    intros [| i] m1 m2 H1 H2; [| discriminate].
    injection H1 as <-. injection H2 as <-. exact same_array_site3. }
  split; [exact Htrue |]. split; [| split; [| split]].
  - apply (proj1 (proj2 (proj2 (proj2
             (eq_compares_common_prefix (E := sample) __init__ mps2))))).
    reflexivity.
  - apply (proj2 (proj2 (proj2 (proj2
             (eq_compares_common_prefix (E := sample) mps2 __init__))))).
    reflexivity.
  - apply (proj1 (proj2 (proj2
             (eq_compares_common_prefix (E := sample) mps1 mps1_other))) 0%nat
             site3 site3_other eq_refl eq_refl same_array_differs).
    intros j a b Hj. lia.
  - exact (proj1 (proj2 (eq_compares_common_prefix (E := sample) mps1 mps2))
             Htrue 0%nat site3 site3 eq_refl eq_refl).
Defined.

(** * Further properties of the class *)

(** ** The peak of the storage *)

Lemma set_peak_bytes_state (depth : nat) (new_bytes : option Z) (s : MatrixProduct) :
  snd (set_peak_bytes depth new_bytes s)
  = with_peak_bytes
      (Z.max (peak_bytes s)
         (match new_bytes with None => total_bytes s | Some b => b end)) s.
Proof.
  unfold set_peak_bytes. rewrite bind_get.
  set (b := match new_bytes with None => total_bytes s | Some b => b end).
  destruct (Z.ltb_spec b (peak_bytes s)) as [Hlt | Hge].
  - cbn. rewrite Z.max_l by lia. destruct s; reflexivity.
  - rewrite bind_modify. cbn. rewrite Z.max_r by lia. reflexivity.
Qed.

(** X1: after any sequence of calls of [set_peak_bytes], whatever the call
    stacks and whether a call ends in the exception of its logging,
    [peak_bytes] is the largest of its old value and the recorded sizes
    (the argument, or [total_bytes] when the argument is [None]); it never
    decreases and nothing else of the chain changes. *)
Theorem peak_bytes_high_water (calls : list (nat * option Z)) (s : MatrixProduct) :
  let recorded c := match snd c with None => total_bytes s | Some b => b end in
  let final := foldl (fun s c => snd (set_peak_bytes (fst c) (snd c) s)) s calls in
  final = with_peak_bytes (high_water (peak_bytes s) (map recorded calls)) s
  /\ peak_bytes s <= peak_bytes final
  /\ Forall (fun c => recorded c <= peak_bytes final) calls.
Proof.
  cbn zeta. revert s. induction calls as [| [d b] calls IH]; intros s.
  - cbn. split; [destruct s; reflexivity |]. split; [lia | constructor].
  - cbn [foldl map fst snd high_water]. rewrite set_peak_bytes_state.
    set (r := match b with None => total_bytes s | Some b0 => b0 end).
    destruct (IH (with_peak_bytes (Z.max (peak_bytes s) r) s)) as (He & Hle & Hall).
    change (total_bytes (with_peak_bytes _ s)) with (total_bytes s) in *.
    cbn [peak_bytes with_peak_bytes] in *. split; [| split].
    + rewrite He. destruct s; reflexivity.
    + lia.
    + constructor; [cbn [snd]; fold r; lia | exact Hall].
Qed.

(** ** The compression method *)

(** X2: assigning [compress_method] stores the value when it is svd or
    variational; any other value raises [AssertionError] and leaves the
    chain as it was. *)
Theorem compress_method_assignment (value : string) (self : MatrixProduct) :
  (value = "svd"%string \/ value = "variational"%string ->
   set_compress_method value self = (Py.ok tt, with_compress_method value self))
  /\ (value <> "svd"%string -> value <> "variational"%string ->
      set_compress_method value self = (Py.raise Py.AssertionError, self)).
Proof.
  unfold set_compress_method. cbn [existsb]. split.
  - intros [-> | ->]; reflexivity.
  - intros H1 H2.
    destruct (String.eqb_spec value "svd"); [contradiction |].
    destruct (String.eqb_spec value "variational"); [contradiction |].
    reflexivity.
Qed.

(** ** More on moving the boundary *)

(** X3: on a chain whose [qnidx] or [qn] is [None], [move_qnidx] raises
    [TypeError] and changes nothing. *)
Theorem move_qnidx_none (dst : Z) (self : MatrixProduct) :
  qnidx self = None \/ qn self = None ->
  move_qnidx dst self = (Py.raise Py.TypeError, self).
Proof.
  intros H. unfold move_qnidx. rewrite bind_get.
  destruct (qnidx self) as [a |] eqn:Ha; [| reflexivity].
  destruct H as [H | H]; [discriminate |].
  rewrite (bind_lift_ok _ a) by reflexivity. rewrite H. reflexivity.
Qed.

(** X4: moving the boundary to [B] and then to [C] has the outcome of
    moving it to [C] at once: the labels do not depend on the way. *)
Theorem move_qnidx_via (self : MatrixProduct) (q : list (list Z)) (t A B C : Z) :
  qn self = Some q -> qntot self = Some t -> qnidx self = Some A ->
  0 <= A -> 0 <= B -> 0 <= C ->
  (do _ <- move_qnidx B; move_qnidx C) self = move_qnidx C self.
Proof.
  intros Hq Ht HA HA0 HB0 HC0.
  rewrite (bind_ok _ _ _ _ _ (move_qnidx_ok self q t A B Hq Ht HA HA0 HB0)).
  set (q1 := flipped t _ (flipped t _ q)).
  assert (Hlen : Py.len q1 = Py.len q).
  { unfold Py.len, q1. now rewrite !flipped_length. }
  rewrite (move_qnidx_ok (with_qnidx (Some B) (with_qn (Some q1) self)) q1 t B C
             eq_refl Ht eq_refl) by lia.
  rewrite (move_qnidx_ok self q t A C Hq Ht HA HA0 HC0).
  rewrite Hlen. unfold q1. rewrite (range_down_up _ B), flipped_forth.
  destruct self; reflexivity.
Qed.

Lemma lookup_flipped (t : Z) (idxs : list Z) :
  NoDup idxs -> Forall (fun i => 0 <= i) idxs ->
  forall (q : list (list Z)) (j : nat),
    flipped t idxs q !! j
    = if decide (Z.of_nat j ∈ idxs) then map (Z.sub t) <$> q !! j else q !! j.
Proof.
  induction idxs as [| i idxs IH]; intros Hnd Hpos q j.
  - cbn. destruct (decide _) as [H | _]; [inversion H | reflexivity].
  - apply NoDup_cons in Hnd as [Hi Hnd]. apply Forall_cons in Hpos as [Hi0 Hpos].
    change (flipped t (i :: idxs) q)
      with (flipped t idxs (alter (map (Z.sub t)) (Z.to_nat i) q)).
    rewrite (IH Hnd Hpos). destruct (decide (Z.of_nat j = i)) as [He | Hne].
    + subst i. rewrite Nat2Z.id.
      destruct (decide (Z.of_nat j ∈ idxs)); [contradiction |].
      destruct (decide (Z.of_nat j ∈ Z.of_nat j :: idxs)) as [_ | Hn];
        [| exfalso; apply Hn; left].
      apply list_lookup_alter_eq.
    + rewrite list_lookup_alter_ne by lia.
      destruct (decide (Z.of_nat j ∈ idxs)) as [Hin | Hnin].
      * destruct (decide (Z.of_nat j ∈ i :: idxs)) as [_ | Hn];
          [reflexivity | exfalso; apply Hn; now right].
      * destruct (decide (Z.of_nat j ∈ i :: idxs)) as [Hin | _]; [| reflexivity].
        apply elem_of_cons in Hin as [Hin | Hin]; [congruence | contradiction].
Qed.

(** The two loops of [move_qnidx] together flip the bonds between the old
    and the new boundary, once each. *)
Lemma two_loops_between (t a b n : Z) (q : list (list Z)) :
  0 <= a <= n - 2 -> 0 <= b <= n - 2 ->
  exists idxs,
    flipped t (Py.range (n - 2) b (-1)) (flipped t (Py.range (a + 1) (n - 1) 1) q)
    = flipped t idxs q
    /\ NoDup idxs /\ forall i, i ∈ idxs <-> Z.min a b < i <= Z.max a b.
Proof.
  intros Ha Hb. rewrite range_down_up, !range_up.
  destruct (Z.le_gt_cases a b) as [Hab | Hba].
  - exists (seqZ (a + 1) (b - a)).
    replace (n - 1 - (a + 1)) with ((b - a) + (n - 1 - (b + 1))) by lia.
    rewrite seqZ_app by lia. replace (a + 1 + (b - a)) with (b + 1) by lia.
    rewrite flipped_app, flipped_back. split; [reflexivity |].
    split; [apply NoDup_seqZ |]. intros i. rewrite elem_of_seqZ. lia.
  - exists (reverse (seqZ (b + 1) (a - b))).
    replace (n - 1 - (b + 1)) with ((a - b) + (n - 1 - (a + 1))) by lia.
    rewrite seqZ_app by lia. replace (b + 1 + (a - b)) with (a + 1) by lia.
    rewrite reverse_app, flipped_app, flipped_back. split; [reflexivity |].
    split; [rewrite reverse_Permutation; apply NoDup_seqZ |].
    intros i. rewrite elem_of_reverse, elem_of_seqZ. lia.
Qed.

(** X5: [move_qnidx(B)] from boundary [A] replaces every label [x] by
    [t - x] on exactly the bonds [min A B < j <= max A B] and leaves every
    other bond as it was. *)
Theorem move_qnidx_flips_between (self : MatrixProduct) (q : list (list Z)) (t A B : Z) :
  qn self = Some q -> qntot self = Some t -> qnidx self = Some A ->
  0 <= A <= Py.len q - 2 -> 0 <= B <= Py.len q - 2 ->
  exists q',
    move_qnidx B self = (Py.ok tt, with_qnidx (Some B) (with_qn (Some q') self))
    /\ length q' = length q
    /\ forall j : nat,
         q' !! j = if decide (Z.min A B < Z.of_nat j <= Z.max A B)
                   then map (Z.sub t) <$> q !! j
                   else q !! j.
Proof.
  intros Hq Ht HA HA0 HB0.
  rewrite (move_qnidx_ok self q t A B Hq Ht HA) by lia.
  eexists. split; [reflexivity |]. split; [now rewrite !flipped_length |].
  intros j. destruct (two_loops_between t A B (Py.len q) q HA0 HB0)
    as (idxs & -> & Hnd & Hin).
  rewrite lookup_flipped; [| exact Hnd |].
  - destruct (decide (Z.of_nat j ∈ idxs)) as [H | H];
      destruct (decide (Z.min A B < Z.of_nat j <= Z.max A B)) as [H' | H'];
      try reflexivity; exfalso; apply Hin in H || (apply H, Hin); tauto.
  - apply Forall_forall. intros i Hi. apply Hin in Hi. lia.
Qed.

(** ** Switching the direction *)

Lemma switch_domain_ok (s : MatrixProduct) :
  _switch_domain s
  = (Py.ok tt, with_qnidx (Some (if is_left_canon s then 0 else site_num s - 1)) s).
Proof. unfold _switch_domain. rewrite bind_get. now destruct (is_left_canon s). Qed.

Lemma with_qnidx_twice (a b : option Z) (s : MatrixProduct) :
  with_qnidx a (with_qnidx b s) = with_qnidx a s.
Proof. reflexivity. Qed.

Lemma with_qnidx_same (a : option Z) (s : MatrixProduct) :
  qnidx s = a -> with_qnidx a s = s.
Proof. intros <-. now destruct s. Qed.

(** X6: [_switch_domain] always returns, keeps the number of sites and
    leaves the chain left- or right-canonical, whatever [qnidx] was; on a
    canonical chain two switches give the chain back. *)
Theorem switch_domain_canonical (self : MatrixProduct) :
  (exists self',
     _switch_domain self = (Py.ok tt, self')
     /\ site_num self' = site_num self
     /\ (is_left_canon self' = true \/ is_right_canon self' = true))
  /\ (is_left_canon self = true \/ is_right_canon self = true ->
      (do _ <- _switch_domain; _switch_domain) self = (Py.ok tt, self)).
Proof.
  split.
  - eexists. split; [apply switch_domain_ok |]. split; [reflexivity |].
    destruct (is_left_canon self); [right; reflexivity | left].
    unfold is_left_canon. cbn [qnidx with_qnidx]. apply Z.eqb_refl.
  - intros H. rewrite (bind_ok _ _ _ _ _ (switch_domain_ok self)), switch_domain_ok.
    f_equal. rewrite with_qnidx_twice. apply with_qnidx_same.
    unfold is_left_canon, is_right_canon in *. cbn [qnidx with_qnidx].
    change (site_num (with_qnidx _ self)) with (site_num self).
    destruct (qnidx self) as [i |]; [| destruct H; discriminate].
    destruct (Z.eqb_spec i (site_num self - 1)) as [Hi | Hne].
    + destruct (Z.eqb_spec 0 (site_num self - 1)) as [H0 | Hne]; f_equal; lia.
    + destruct H as [H | H]; [discriminate |]. apply Z.eqb_eq in H.
      rewrite Z.eqb_refl. f_equal. lia.
Qed.

(** ** Sweeps one after the other, and sweeps on short chains *)

Section MoreSweeps.

Context {E : Collaborators}.

Lemma sweep_outcome (check : M unit) (visited : list Z) (body : Z -> M unit)
  (target : Z) (s s' : MatrixProduct) :
  keeps_boundary check -> (forall i, keeps_boundary (body i)) ->
  sweep check visited body target s = (Py.ok tt, s') ->
  qnidx s' = Some target /\ site_num s' = site_num s.
Proof.
  intros Hc Hb H. split; [exact (sweep_completed _ _ _ _ _ _ H) |].
  unfold sweep, mbind, modify in H.
  destruct (Hc s) as [_ H1]. destruct (check s) as [[e | []] s1]; [discriminate |].
  destruct (keeps_for visited body Hb s1) as [_ H2].
  destruct (for_ visited body s1) as [[e | []] s2]; [discriminate |].
  injection H as <-. cbn [snd] in *. unfold site_num in *. cbn. congruence.
Qed.

(** A sweep that returns: the new boundary and the site count. *)
Lemma sweep_returns (s s' : MatrixProduct) :
  (exists cc, compress cc s = (Py.ok tt, s')) \/ canonicalise s = (Py.ok tt, s') ->
  qnidx s' = Some (if is_left_canon s then 0 else site_num s - 1)
  /\ site_num s' = site_num s.
Proof.
  intros [[cc H] | H].
  - rewrite compress_unfold in H. eapply sweep_outcome; [| | exact H].
    + apply keeps_ensure_canonical.
    + intros i. apply keeps_compress_site.
  - rewrite canonicalise_unfold in H. eapply sweep_outcome; [| | exact H].
    + apply keeps_mret.
    + intros i. apply keeps_canonicalise_site.
Qed.

(** X7: two sweeps ([compress] or [canonicalise], in any combination) that
    return on a canonical chain bring [qnidx] back to where it was; the
    chain between them is canonical, in the other direction when the chain
    does not have exactly one site. *)
Theorem sweeps_alternate (self s1 s2 : MatrixProduct) :
  is_left_canon self = true \/ is_right_canon self = true ->
  (exists cc, compress cc self = (Py.ok tt, s1)) \/ canonicalise self = (Py.ok tt, s1) ->
  (exists cc, compress cc s1 = (Py.ok tt, s2)) \/ canonicalise s1 = (Py.ok tt, s2) ->
  qnidx s2 = qnidx self
  /\ (is_left_canon s1 = true \/ is_right_canon s1 = true)
  /\ (site_num self <> 1 -> is_left_canon s1 = negb (is_left_canon self)).
Proof.
  intros Hcanon H1 H2.
  destruct (sweep_returns _ _ H1) as [Hq1 Hn1].
  destruct (sweep_returns _ _ H2) as [Hq2 Hn2].
  rewrite Hq2, Hn1. unfold is_left_canon, is_right_canon in *. rewrite Hq1, Hn1.
  destruct (qnidx self) as [i |]; [| destruct Hcanon; discriminate].
  destruct (Z.eqb_spec i (site_num self - 1)) as [Hi | Hne].
  - split; [| split].
    + destruct (Z.eqb_spec 0 (site_num self - 1)); f_equal; lia.
    + right. reflexivity.
    + intros Hn. apply Z.eqb_neq. lia.
  - destruct Hcanon as [H | H]; [discriminate |]. apply Z.eqb_eq in H.
    rewrite Z.eqb_refl. split; [f_equal; lia |]. split; [now left | reflexivity].
Qed.

Lemma short_chain_no_visit (s : MatrixProduct) :
  site_num s <= 1 -> iter_idx_list s = [].
Proof.
  intros H. unfold iter_idx_list. destruct (is_left_canon s).
  - rewrite range_down. rewrite seqZ_nil by lia. reflexivity.
  - rewrite range_up. apply seqZ_nil. lia.
Qed.

Lemma short_chain_canonical (cc : bool) (s : MatrixProduct) :
  site_num s <= 1 -> ensure_canonical cc s = (Py.ok tt, s).
Proof.
  intros H. unfold ensure_canonical. rewrite bind_get.
  unfold check_left_canonical, check_right_canonical. unfold site_num, Py.len in H.
  destruct (_mp s) as [| mt [| mt' l]]; [| | cbn in H; lia];
    destruct cc, (is_left_canon s); reflexivity.
Qed.

(** X8: on a chain of at most one site [compress] (with or without the
    canonical check) and [canonicalise] return without calling the
    factorisation or touching a tensor; only [qnidx] is set: to 0 on a
    left-canonical chain, to [site_num - 1] otherwise, which is -1 on the
    empty chain. *)
Theorem sweep_short_chain (check_canonical : bool) (self : MatrixProduct) :
  site_num self <= 1 ->
  let self' := with_qnidx (Some (if is_left_canon self then 0 else site_num self - 1))
                 self in
  compress check_canonical self = (Py.ok tt, self')
  /\ canonicalise self = (Py.ok tt, self').
Proof.
  intros H self'. rewrite compress_unfold, canonicalise_unfold. unfold sweep.
  rewrite (short_chain_no_visit self H).
  rewrite (bind_ok _ _ _ _ _ (short_chain_canonical check_canonical self H)).
  split; reflexivity.
Qed.

End MoreSweeps.

(** ** Sweeps that stop before the first factorisation *)

Lemma iter_idx_list_length (s : MatrixProduct) :
  length (iter_idx_list s) = Z.to_nat (site_num s - 1).
Proof.
  unfold iter_idx_list. destruct (is_left_canon s).
  - rewrite range_down, length_reverse, length_seqZ. f_equal. lia.
  - rewrite range_up, length_seqZ. f_equal. lia.
Qed.

Lemma for_first_raises {A} (l : list A) (body : A -> M unit) (s : MatrixProduct) :
  l <> [] -> (forall x, exists e, body x s = (Py.raise e, s)) ->
  exists e, for_ l body s = (Py.raise e, s).
Proof.
  intros Hl Hb. destruct l as [| x l]; [congruence |].
  destruct (Hb x) as [e He]. exists e. cbn [for_]. now apply bind_raise.
Qed.

Section EarlyStops.

Context {E : Collaborators}.

Lemma getitem_run (idx : Z) (s : MatrixProduct) :
  __getitem__ idx s = (Py.getitem (_mp s) idx, s).
Proof. reflexivity. Qed.

Lemma reads_combined (idx : Z) : reads_only (combined idx).
Proof. unfold combined, __getitem__. repeat reads_step. Qed.

Lemma combined_run (idx : Z) (s : MatrixProduct) :
  combined idx s = (fst (combined idx s), s).
Proof. apply outcome; [apply reads_combined | reflexivity]. Qed.

Lemma ensure_canonical_run (cc : bool) (s : MatrixProduct) :
  ensure_canonical cc s = (fst (ensure_canonical cc s), s).
Proof. apply outcome; [apply reads_ensure_canonical | reflexivity]. Qed.

Lemma get_big_qn_no_labels (idx : Z) (s : MatrixProduct) :
  qn s = None -> exists e, _get_big_qn idx s = (Py.raise e, s).
Proof.
  intros Hq. unfold _get_big_qn, mbind at 1. rewrite getitem_run.
  destruct (Py.getitem (_mp s) idx) as [e | mt]; [now exists e |].
  rewrite bind_get. rewrite Hq. now exists Py.TypeError.
Qed.

Lemma site_no_labels (idx : Z) (s : MatrixProduct) (k : Np.ndarray -> (qnarray * qnarray) -> M unit) :
  qn s = None ->
  exists e, (do mt <- combined idx; do big <- _get_big_qn idx; k mt big) s
            = (Py.raise e, s).
Proof.
  intros Hq. unfold mbind at 1. rewrite combined_run.
  destruct (fst (combined idx s)) as [e | mt]; [now exists e |].
  destruct (get_big_qn_no_labels idx s Hq) as [e He]. exists e.
  now apply bind_raise.
Qed.

(** X9: on a chain of two or more sites whose [qn] is [None], [compress]
    and [canonicalise] raise and leave the chain as it was: the sweeps do
    not establish the labels themselves. *)
Theorem sweeps_need_labels (check_canonical : bool) (self : MatrixProduct) :
  qn self = None -> 2 <= site_num self ->
  (exists e, canonicalise self = (Py.raise e, self))
  /\ (exists e, compress check_canonical self = (Py.raise e, self)).
Proof.
  intros Hq Hn.
  assert (Hne : iter_idx_list self <> []).
  { intros H. apply (f_equal length) in H. rewrite iter_idx_list_length in H.
    cbn in H. lia. }
  split.
  - unfold canonicalise. rewrite bind_get.
    destruct (for_first_raises (iter_idx_list self) canonicalise_site self Hne)
      as [e He].
    { intros idx. apply site_no_labels, Hq. }
    exists e. now apply bind_raise.
  - unfold compress, mbind at 1. rewrite ensure_canonical_run.
    destruct (fst (ensure_canonical check_canonical self)) as [e | []];
      [now exists e |].
    rewrite bind_get.
    destruct (for_first_raises (iter_idx_list self)
                (compress_site (if is_left_canon self then "R" else "L")%string)
                self Hne) as [e He].
    { intros idx. apply site_no_labels, Hq. }
    exists e. now apply bind_raise.
Qed.

Lemma combined_zero (idx : Z) (s : MatrixProduct) (mt : Matrix) :
  Py.getitem (_mp s) idx = Py.ok mt -> Np.any (arr mt) = false ->
  combined idx s = (Py.raise Py.AssertionError, s).
Proof.
  intros Hg Ha. unfold combined.
  rewrite (bind_ok _ _ s s mt) by (now rewrite getitem_run, Hg).
  rewrite Ha. reflexivity.
Qed.

(** X10: when the tensor of a visited site has no non-zero entry,
    [canonicalise] and [compress] raise [AssertionError] there
    ([assert mt.any()]), before the factorisation; the chain is as the
    earlier sites left it. *)
Theorem zero_tensor_raises (check_canonical : bool) (self self1 self2 : MatrixProduct)
  (pre post : list Z) (idx : Z) (mt1 mt2 : Matrix) :
  iter_idx_list self = pre ++ idx :: post ->
  (for_ pre canonicalise_site self = (Py.ok tt, self1) ->
   Py.getitem (_mp self1) idx = Py.ok mt1 -> Np.any (arr mt1) = false ->
   canonicalise self = (Py.raise Py.AssertionError, self1))
  /\ (fst (ensure_canonical check_canonical self) = Py.ok tt ->
      for_ pre (compress_site (system_of self)) self = (Py.ok tt, self2) ->
      Py.getitem (_mp self2) idx = Py.ok mt2 -> Np.any (arr mt2) = false ->
      compress check_canonical self = (Py.raise Py.AssertionError, self2)).
Proof.
  intros Hi. split.
  - intros Hpre Hg Ha. unfold canonicalise. rewrite bind_get, Hi.
    apply bind_raise. eapply for_stops; [exact Hpre |].
    unfold canonicalise_site. apply bind_raise. exact (combined_zero _ _ _ Hg Ha).
  - intros Hc Hpre Hg Ha. unfold compress.
    assert (Hc' : ensure_canonical check_canonical self = (Py.ok tt, self))
      by (now rewrite ensure_canonical_run, Hc).
    rewrite (bind_ok _ _ _ _ _ Hc'), bind_get. fold (system_of self). rewrite Hi.
    apply bind_raise. eapply for_stops; [exact Hpre |].
    unfold compress_site. apply bind_raise. exact (combined_zero _ _ _ Hg Ha).
Qed.

Lemma forallb_fails {A} (f : A -> bool) (l : list A) (i : nat) (x : A) :
  l !! i = Some x -> f x = false -> forallb f l = false.
Proof.
  intros Hl Hf. destruct (forallb f l) eqn:Hall; [| reflexivity].
  rewrite forallb_forall in Hall. rewrite <- Hf. symmetry. apply Hall.
  apply list_elem_of_In. eapply list_elem_of_lookup_2. exact Hl.
Qed.

Lemma removelast_lookup {A} (l : list A) (i : nat) :
  (S i < length l)%nat -> removelast l !! i = l !! i.
Proof.
  intros Hi. destruct (exists_last (l := l)) as (l' & a & ->).
  { intros ->. cbn in Hi. lia. }
  rewrite removelast_last. rewrite length_app in Hi. cbn in Hi.
  rewrite lookup_app_l by lia. reflexivity.
Qed.

(** X11: [compress(check_canonical=True)] raises [AssertionError] and
    changes nothing when, on a left-canonical chain, a tensor other than the
    last fails [check_lortho], or, on any other chain, a tensor other than
    the first fails [check_rortho]. *)
Theorem check_canonical_raises (self : MatrixProduct) (i : nat) (mt : Matrix) :
  _mp self !! i = Some mt ->
  (is_left_canon self = true -> Z.of_nat i < site_num self - 1 ->
   check_lortho mt = false ->
   compress true self = (Py.raise Py.AssertionError, self))
  /\ (is_left_canon self = false -> (0 < i)%nat -> check_rortho mt = false ->
      compress true self = (Py.raise Py.AssertionError, self)).
Proof.
  intros Hl. split.
  - intros Hcanon Hi Hf. unfold compress. apply bind_raise.
    unfold ensure_canonical. rewrite bind_get, Hcanon. unfold check_left_canonical.
    rewrite (forallb_fails check_lortho _ i mt); [reflexivity | | exact Hf].
    rewrite removelast_lookup; [exact Hl |]. unfold site_num, Py.len in Hi. lia.
  - intros Hcanon Hi Hf. unfold compress. apply bind_raise.
    unfold ensure_canonical. rewrite bind_get, Hcanon. unfold check_right_canonical.
    rewrite (forallb_fails check_rortho _ (i - 1) mt); [reflexivity | | exact Hf].
    rewrite lookup_drop. replace (1 + (i - 1))%nat with i by lia. exact Hl.
Qed.

End EarlyStops.

(** ** Building a chain and reading it back *)

Lemma real_entry (z : Np.complex) : Np.im z = 0%R -> Np.mkC (Np.re z) 0 = z.
Proof. destruct z as [x y]. cbn. now intros ->. Qed.

Lemma astype_stored (d : Np.dtype) (a : Np.ndarray) :
  stored_as d a -> Np.astype d a = a.
Proof.
  destruct a as [da sh l]. intros [Hd Hre]. cbn in Hd. subst da.
  destruct d; cbn; [| reflexivity]. f_equal.
  specialize (Hre eq_refl). cbn in Hre.
  induction Hre as [| z l Hz _ IH]; [reflexivity |].
  cbn. now rewrite real_entry, IH.
Qed.

Section Construction.

Context {E : Collaborators}.

Lemma append_ok (array : Np.ndarray) (s : MatrixProduct) :
  appendable ->
  exists new_mt,
    append array s = (Py.ok tt, with_mp (_mp s ++ [new_mt]) s)
    /\ arr new_mt = Np.astype (dtype s) array.
Proof.
  intros [Hmpo Hsq]. unfold append. rewrite bind_get.
  destruct (Hmpo s) as [b Hb]. destruct (Hsq s) as [l Hl].
  unfold array2mt. unfold mbind at 1. rewrite bind_get.
  rewrite (bind_lift_ok _ _ _ _ Hb).
  destruct (use_dummy_qn s).
  - eexists. split; reflexivity.
  - rewrite (bind_lift_ok _ _ _ _ Hl). eexists. split; reflexivity.
Qed.

Lemma for_append (raw : list Np.ndarray) :
  appendable ->
  forall s, exists news,
    for_ raw append s = (Py.ok tt, with_mp (_mp s ++ news) s)
    /\ map arr news = map (Np.astype (dtype s)) raw.
Proof.
  intros Ha. induction raw as [| a raw IH]; intros s.
  - exists []. split; [| reflexivity]. cbn. rewrite app_nil_r. now destruct s.
  - destruct (append_ok a s Ha) as (mt & Hrun & Harr).
    destruct (IH (with_mp (_mp s ++ [mt]) s)) as (news & Hfor & Hmap).
    exists (mt :: news). split.
    + cbn [for_]. rewrite (bind_ok _ _ _ _ _ Hrun), Hfor.
      cbn [_mp with_mp]. rewrite <- app_assoc. reflexivity.
    + cbn [map]. now rewrite Harr, Hmap.
Qed.

(** X12: [from_raw_list] on a fresh chain, given arrays of at least two
    entries each, stores one tensor per array, in order, with the dtype of
    the first array as the dtype of the chain, and [to_raw_list] returns the
    arrays cast to that dtype; arrays already stored as that dtype come back
    unchanged.  An empty list leaves the chain as it was. *)
Theorem raw_list_round_trip (raw : list Np.ndarray) (fresh : MatrixProduct) :
  appendable -> _mp fresh = [] -> Forall several_entries raw ->
  exists self,
    from_raw_list raw fresh = (Py.ok tt, self)
    /\ site_num self = Py.len raw
    /\ dtype self = match raw with [] => dtype fresh | a0 :: _ => Np.dt a0 end
    /\ to_raw_list self = map (Np.astype (dtype self)) raw
    /\ (Forall (stored_as (dtype self)) raw -> to_raw_list self = raw).
Proof.
  intros Ha Hfresh _. unfold from_raw_list.
  destruct raw as [| a0 raw'].
  - exists fresh. unfold to_raw_list, site_num, Py.len. rewrite Hfresh.
    repeat split; reflexivity.
  - set (raw := a0 :: raw'). rewrite bind_modify.
    destruct (for_append raw Ha (with_dtype (Np.dt a0) fresh)) as (news & Hfor & Hmap).
    cbn [_mp with_dtype dtype] in *. rewrite Hfresh in Hfor. cbn [app] in Hfor.
    eexists. split; [exact Hfor |].
    unfold to_raw_list, site_num, Py.len. cbn [_mp with_mp dtype with_dtype].
    split; [| split; [| split]].
    + f_equal. rewrite <- (length_map arr), Hmap, length_map. reflexivity.
    + reflexivity.
    + exact Hmap.
    + intros Hall. rewrite Hmap. rewrite <- (map_id raw) at 2.
      apply map_ext_Forall. eapply Forall_impl; [exact Hall |].
      intros a. apply astype_stored.
Qed.

Lemma reads_array2mt (array : Np.ndarray) (idx : Z) : reads_only (array2mt array idx).
Proof. unfold array2mt. repeat reads_step. Qed.

Lemma norm_index_out (n : nat) (i : Z) :
  i < - Z.of_nat n \/ Z.of_nat n <= i -> Py.norm_index n i = None.
Proof.
  intros H. unfold Py.norm_index.
  destruct (Z.leb_spec 0 i), (Z.ltb_spec i (Z.of_nat n)),
    (Z.leb_spec (- Z.of_nat n) i), (Z.ltb_spec i 0); cbn; try reflexivity; lia.
Qed.

(** X13: after [self[key] = array] for a site [key] and an array of at
    least two entries, [self[key]] is a tensor holding [array] cast to the
    dtype of the chain; the number of sites and every other tensor are as
    before. *)
Theorem setitem_then_getitem (key : Z) (array : Np.ndarray) (self : MatrixProduct) :
  subclass_total -> 0 <= key < site_num self -> several_entries array ->
  exists self' mt,
    __setitem__ key array self = (Py.ok tt, self')
    /\ __getitem__ key self' = (Py.ok mt, self')
    /\ arr mt = Np.astype (dtype self) array
    /\ site_num self' = site_num self
    /\ forall j, j <> Z.to_nat key -> _mp self' !! j = _mp self !! j.
Proof.
  intros Ht Hkey _. destruct (setitem_ok key array self Ht Hkey) as (mt & Hset & Harr).
  eexists. exists mt. split; [exact Hset |].
  assert (Hlen : (Z.to_nat key < length (_mp self))%nat)
    by (unfold site_num, Py.len in Hkey; lia).
  split; [| split; [exact Harr | split]].
  - unfold __getitem__. rewrite bind_get. unfold lift, Py.getitem.
    cbn [_mp with_mp]. rewrite length_insert.
    rewrite norm_index_in_range by exact Hkey.
    now rewrite list_lookup_insert_eq.
  - unfold site_num, Py.len. cbn. now rewrite length_insert.
  - intros j Hj. cbn [_mp with_mp]. now apply list_lookup_insert_ne.
Qed.

(** X14: for [key] outside [-site_num, site_num), [self[key]] raises
    [IndexError] and [self[key] = array] raises; the chain is unchanged. *)
Theorem index_out_of_range (key : Z) (array : Np.ndarray) (self : MatrixProduct) :
  key < - site_num self \/ site_num self <= key ->
  __getitem__ key self = (Py.raise Py.IndexError, self)
  /\ exists e, __setitem__ key array self = (Py.raise e, self).
Proof.
  intros Hkey. unfold site_num, Py.len in Hkey. split.
  - unfold __getitem__. rewrite bind_get. unfold lift, Py.getitem.
    now rewrite norm_index_out.
  - unfold __setitem__, mbind at 1.
    rewrite (outcome _ _ _ (reads_array2mt array key) eq_refl).
    destruct (fst (array2mt array key self)) as [e | mt]; [now exists e |].
    rewrite bind_get. unfold Py.setitem. rewrite norm_index_out by exact Hkey.
    now exists Py.IndexError.
Qed.

End Construction.

(** ** Conjugation and promotion *)

Lemma Cconj_involutive (z : Np.complex) : Np.Cconj (Np.Cconj z) = z.
Proof. destruct z as [x y]. unfold Np.Cconj. cbn. f_equal. lra. Qed.

Lemma conj_twice_stored (d : Np.dtype) (a : Np.ndarray) :
  Np.astype d (Np.conj (Np.astype d (Np.conj a))) = Np.astype d a.
Proof.
  destruct d; cbn; f_equal; rewrite !map_map.
  - reflexivity.
  - rewrite <- (map_id (Np.data a)) at 2. apply map_ext. intros z.
    apply Cconj_involutive.
Qed.

Section Conj.

Context {E : Collaborators}.

(** The loop [for i in range(site_num): self[i] = g(self[i])] from site [a]
    on. *)
Lemma map_loop (g : Np.ndarray -> Np.ndarray) (len : nat) :
  subclass_total ->
  forall (a : nat) (s : MatrixProduct),
    (a + len)%nat = length (_mp s) ->
    exists s',
      for_ (seqZ (Z.of_nat a) (Z.of_nat len))
        (fun i => do mt <- __getitem__ i; do self <- get; __setitem__ i (g (arr mt))) s
      = (Py.ok tt, s')
      /\ dtype s' = dtype s /\ qnidx s' = qnidx s /\ qn s' = qn s
      /\ site_num s' = site_num s
      /\ forall j mt, _mp s !! j = Some mt ->
           exists mt', _mp s' !! j = Some mt'
                       /\ arr mt' = if decide (a <= j)%nat
                                    then Np.astype (dtype s) (g (arr mt)) else arr mt.
Proof.
  intros Ht. induction len as [| len IH]; intros a s Hlen.
  - exists s. split; [reflexivity |]. repeat split. intros j mt Hj.
    exists mt. split; [exact Hj |].
    apply lookup_lt_Some in Hj. destruct (decide (a <= j)%nat); [lia | reflexivity].
  - rewrite seqZ_cons by lia. cbn [for_].
    assert (Ha : 0 <= Z.of_nat a < site_num s) by (unfold site_num, Py.len; lia).
    destruct (getitem_ok _ s Ha) as (mt_a & Hmt_a & Hget).
    destruct (setitem_ok (Z.of_nat a) (g (arr mt_a)) s Ht Ha) as (new_mt & Hset & Harr).
    rewrite Nat2Z.id in Hmt_a, Hset.
    set (s1 := with_mp (<[a := new_mt]> (_mp s)) s) in *.
    destruct (IH (S a) s1) as (s' & Hfor & Hd & Hq & Hqn & Hn & Hs').
    { unfold s1. cbn. rewrite length_insert. lia. }
    exists s'. split.
    + erewrite bind_ok; [| rewrite (bind_ok _ _ _ _ _ Hget), bind_get; exact Hset].
      replace (Z.succ (Z.of_nat a)) with (Z.of_nat (S a)) by lia.
      replace (Z.pred (Z.of_nat (S len))) with (Z.of_nat len) by lia.
      exact Hfor.
    + split; [exact Hd |]. split; [exact Hq |]. split; [exact Hqn |]. split.
      { rewrite Hn. unfold s1, site_num, Py.len. cbn. now rewrite length_insert. }
      intros j mt Hj. destruct (decide (j = a)) as [-> | Hne].
      * destruct (Hs' a new_mt) as (mt' & Hl & Hmt').
        { unfold s1. cbn. apply list_lookup_insert_eq. now apply lookup_lt_Some in Hj. }
        exists mt'. split; [exact Hl |].
        destruct (decide (S a <= a)%nat); [lia |].
        destruct (decide (a <= a)%nat); [| lia].
        rewrite Hmt', Harr. congruence.
      * destruct (Hs' j mt) as (mt' & Hl & Hmt').
        { unfold s1. cbn. rewrite list_lookup_insert_ne by congruence. exact Hj. }
        exists mt'. split; [exact Hl |]. rewrite Hmt'.
        cbn [dtype with_mp s1].
        destruct (decide (S a <= j)%nat), (decide (a <= j)%nat); try lia; reflexivity.
Qed.

Lemma conj_ok (s : MatrixProduct) :
  subclass_total ->
  exists s',
    conj s = Py.ok s'
    /\ dtype s' = dtype s /\ qnidx s' = qnidx s /\ qn s' = qn s
    /\ site_num s' = site_num s
    /\ forall j mt, _mp s !! j = Some mt ->
         exists mt', _mp s' !! j = Some mt'
                     /\ arr mt' = Np.astype (dtype s) (Np.conj (arr mt)).
Proof.
  intros Ht. unfold conj, copy, map_sites. rewrite bind_get.
  rewrite range_up, Z.sub_0_r. unfold site_num at 1, Py.len.
  destruct (map_loop Np.conj (length (_mp s)) Ht 0%nat s eq_refl)
    as (s' & Hrun & Hd & Hq & Hqn & Hn & Hs').
  change (Z.of_nat 0) with 0 in Hrun. rewrite Hrun. exists s'. repeat split; try assumption.
Qed.

(** X15: [conj()] returns a chain with the same number of sites, dtype and
    labels whose tensors are the conjugates, stored in the dtype of the
    chain; conjugating twice gives back the tensors of the chain (as stored
    in its dtype). *)
Theorem conj_involution (self : MatrixProduct) :
  subclass_total ->
  exists c cc,
    conj self = Py.ok c /\ conj c = Py.ok cc
    /\ site_num cc = site_num self /\ dtype cc = dtype self
    /\ qn cc = qn self /\ qnidx cc = qnidx self
    /\ forall j mt, _mp self !! j = Some mt ->
         exists mt1 mt2,
           _mp c !! j = Some mt1 /\ _mp cc !! j = Some mt2
           /\ arr mt1 = Np.astype (dtype self) (Np.conj (arr mt))
           /\ arr mt2 = Np.astype (dtype self) (arr mt).
Proof.
  intros Ht.
  destruct (conj_ok self Ht) as (c & Hc & Hd & Hq & Hqn & Hn & Hs).
  destruct (conj_ok c Ht) as (cc & Hcc & Hd' & Hq' & Hqn' & Hn' & Hs').
  exists c, cc. repeat split; try congruence.
  intros j mt Hj. destruct (Hs j mt Hj) as (mt1 & Hl1 & Hmt1).
  destruct (Hs' j mt1 Hl1) as (mt2 & Hl2 & Hmt2).
  exists mt1, mt2. repeat split; try assumption.
  rewrite Hmt2, Hmt1, Hd. apply conj_twice_stored.
Qed.

(** X16: [to_complex] returns a chain that is complex, with the same
    sites and [qnidx], in which every tensor has the shape and the entries it
    had; with [inplace] the returned chain is [self], otherwise [self] is
    unchanged. *)
Theorem to_complex_keeps_entries (inplace : bool) (self : MatrixProduct) :
  subclass_total ->
  exists new_mp,
    to_complex inplace self = (Py.ok new_mp, if inplace then new_mp else self)
    /\ is_complex new_mp = true
    /\ site_num new_mp = site_num self /\ qnidx new_mp = qnidx self
    /\ forall j mt, _mp self !! j = Some mt ->
         exists mt', _mp new_mp !! j = Some mt'
                     /\ Np.dt (arr mt') = Np.complex128
                     /\ Np.shape (arr mt') = Np.shape (arr mt)
                     /\ Np.data (arr mt') = Np.data (arr mt).
Proof.
  intros Ht. destruct (to_complex_body_ok self Ht) as (s1 & Hrun & Hd & Hq & Hn & Hs).
  exists s1. unfold to_complex, on_new_mp, copy.
  replace (if inplace then self else self) with self by now destruct inplace.
  rewrite Hrun. split; [reflexivity |].
  split; [unfold is_complex; now rewrite Hd |]. split; [exact Hn |]. split; [exact Hq |].
  intros j mt Hj. destruct (Hs j mt Hj) as (mt' & Hl & Hmt').
  exists mt'. split; [exact Hl |].
  destruct (decide (0 <= j)%nat); [| lia]. rewrite Hmt'. repeat split.
Qed.

End Conj.

(** ** Neutral labels *)

Lemma bonded_lookup (l : list Matrix) :
  bonded l ->
  forall j mt, l !! j = Some mt ->
    exists b, bond_dim mt = Py.ok b
              /\ forall mt' b', l !! S j = Some mt' -> bond_dim mt' = Py.ok b' ->
                                snd b = fst b'.
Proof.
  induction l as [| m l IH]; intros Hb j mt Hj; [discriminate |].
  destruct Hb as [(b & Hbd & Hnext) Hrest]. destruct j as [| j].
  - injection Hj as <-. exists b. split; [exact Hbd |].
    intros mt' b' Hl Hb'. cbn in Hl. destruct l as [| next l']; [discriminate |].
    injection Hl as <-. destruct Hnext as (b'' & Hb'' & Heq).
      unfold Py.ok in *. congruence.
  - exact (IH Hrest j mt Hj).
Qed.

Lemma left_bonds (l : list Matrix) :
  bonded l ->
  exists ls,
    Py.map_result (fun mt => let? b := bond_dim mt in Py.ok (fst b)) l = Py.ok ls
    /\ length ls = length l
    /\ forall j mt b, l !! j = Some mt -> bond_dim mt = Py.ok b -> ls !! j = Some (fst b).
Proof.
  induction l as [| m l IH]; intros Hb.
  - exists []. repeat split. intros j mt b Hj. discriminate.
  - destruct Hb as [(b & Hbd & _) Hrest]. destruct (IH Hrest) as (ls & Hm & Hlen & Hls).
    exists (fst b :: ls). cbn [Py.map_result]. rewrite Hbd. cbn [Py.rbind Py.ok].
    rewrite Hm. split; [reflexivity |]. split; [cbn; now rewrite Hlen |].
    intros [| j] mt b' Hj Hb'.
    + injection Hj as <-. cbn. unfold Py.ok in *. congruence.
    + exact (Hls j mt b' Hj Hb').
Qed.

Lemma getitem_last {A} (l : list A) (x : A) :
  Py.getitem (l ++ [x]) (-1) = Py.ok x.
Proof.
  unfold Py.getitem, Py.norm_index. rewrite length_app. cbn [length].
  destruct (Z.leb_spec 0 (-1)); [lia |]. cbn [andb].
  destruct (Z.leb_spec (- Z.of_nat (length l + 1)) (-1)); [| lia].
  destruct (Z.ltb_spec (-1) 0); [| lia]. cbn [andb].
  replace (Z.to_nat (Z.of_nat (length l + 1) + -1)) with (length l) by lia.
  rewrite lookup_app_r by lia. now rewrite Nat.sub_diag.
Qed.

Lemma bond_dims_ok (s : MatrixProduct) :
  bonded (_mp s) ->
  exists dims,
    bond_dims s = Py.ok dims
    /\ Py.len dims = (if site_num s =? 0 then 0 else site_num s + 1)
    /\ forall j mt b, _mp s !! j = Some mt -> bond_dim mt = Py.ok b ->
         dims !! j = Some (fst b) /\ dims !! S j = Some (snd b).
Proof.
  intros Hb. unfold bond_dims, site_num, Py.len.
  assert (Hcase : _mp s = [] \/ exists l last, _mp s = l ++ [last]).
  { destruct (_mp s) as [| m0 l0]; [now left | right].
    destruct (exists_last (l := m0 :: l0)) as (l & a & ->); [discriminate | eauto]. }
  destruct Hcase as [Hnil | (l & last & Hl)].
  - rewrite Hnil. exists []. repeat split; discriminate.
  - destruct (Z.eqb_spec (Z.of_nat (length (_mp s))) 0) as [H0 | _].
    { rewrite Hl, length_app in H0. cbn in H0. lia. }
    destruct (left_bonds _ Hb) as (ls & Hm & Hlen & Hls). rewrite Hm. cbn [Py.rbind Py.ok].
    assert (Hg : Py.getitem (_mp s) (-1) = Py.ok last)
      by (rewrite Hl; apply getitem_last).
    rewrite Hg. cbn [Py.rbind Py.ok].
    destruct (bonded_lookup _ Hb (length l) last) as (bl & Hbl & _).
    { rewrite Hl, lookup_app_r by lia. now rewrite Nat.sub_diag. }
    rewrite Hbl. cbn [Py.rbind Py.ok]. eexists. split; [reflexivity |].
    split; [rewrite length_app, Hlen; cbn; lia |].
    intros j mt b Hj Hbd. pose proof (lookup_lt_Some _ _ _ Hj) as Hlt. split.
    + rewrite lookup_app_l by lia. exact (Hls j mt b Hj Hbd).
    + destruct (bonded_lookup _ Hb j mt Hj) as (b0 & Hb0 & Hnext).
      assert (b0 = b) as -> by (unfold Py.ok in *; congruence).
      destruct (decide (S j < length (_mp s))%nat) as [Hin | Hout].
      * destruct (lookup_lt_is_Some_2 _ _ Hin) as [mt' Hmt'].
        destruct (bonded_lookup _ Hb (S j) mt' Hmt') as (b' & Hb' & _).
        rewrite lookup_app_l by lia. rewrite (Hls (S j) mt' b' Hmt' Hb').
        f_equal. symmetry. exact (Hnext mt' b' Hmt' Hb').
      * assert (j = length l) as -> by (rewrite Hl, length_app in *; cbn in *; lia).
        rewrite Hl, lookup_app_r in Hj by lia. rewrite Nat.sub_diag in Hj.
        injection Hj as <-. assert (bl = b) as -> by (unfold Py.ok in *; congruence).
        rewrite lookup_app_r by lia. rewrite Hlen, Hl, length_app. cbn [length].
        replace (S (length l) - (length l + 1))%nat with 0%nat by lia. reflexivity.
Qed.

(** X17: on a chain whose tensors have matching bonds, [build_empty_qn]
    returns with [qnidx = 0], total 0 (also in dummy mode) and one neutral
    label vector per bond, whose length is the size of the bond: the left
    bond of tensor [j] at [qn[j]] and its right bond at [qn[j+1]], which are
    the lengths [_get_big_qn] asserts.  The empty chain gets no label
    vector. *)
Theorem build_empty_qn_labels (self : MatrixProduct) :
  bonded (_mp self) ->
  exists self' q,
    build_empty_qn self = (Py.ok tt, self')
    /\ _mp self' = _mp self /\ qnidx self' = Some 0 /\ qntot self' = Some 0
    /\ qn self' = Some q
    /\ Py.len q = (if site_num self =? 0 then 0 else site_num self + 1)
    /\ forall j mt b, _mp self !! j = Some mt -> bond_dim mt = Py.ok b ->
         q !! j = Some (replicate (fst b) 0) /\ q !! S j = Some (replicate (snd b) 0).
Proof.
  intros Hb. destruct (bond_dims_ok self Hb) as (dims & Hd & Hlen & Hdims).
  unfold build_empty_qn.
  set (s1 := snd (set_qntot (Some 0) self)).
  assert (H1 : set_qntot (Some 0) self = (Py.ok tt, s1)).
  { unfold s1, set_qntot. now destruct (use_dummy_qn self). }
  assert (Hmp : _mp s1 = _mp self).
  { unfold s1, set_qntot. now destruct (use_dummy_qn self). }
  assert (Ht : qntot s1 = Some 0).
  { unfold s1, set_qntot, qntot. destruct (use_dummy_qn self) eqn:Hu; cbn; now rewrite Hu. }
  rewrite (bind_ok _ _ _ _ _ H1), bind_modify, bind_get.
  assert (Hd1 : bond_dims (with_qnidx (Some 0) s1) = Py.ok dims).
  { rewrite <- Hd. unfold bond_dims, site_num. cbn [_mp with_qnidx]. now rewrite Hmp. }
  rewrite (bind_lift_ok _ _ _ _ Hd1).
  eexists. exists (zero_qn dims). split; [reflexivity |].
  split; [exact Hmp |]. split; [reflexivity |]. split; [exact Ht |].
  split; [reflexivity |].
  split; [unfold zero_qn, Py.len in *; now rewrite length_map |].
  intros j mt b Hj Hbd. destruct (Hdims j mt b Hj Hbd) as [Hl Hr].
  unfold zero_qn. change (map ?f dims) with (f <$> dims).
  rewrite !list_lookup_fmap, Hl, Hr. split; reflexivity.
Qed.

(** ** Bounds of the kept rank *)

Lemma filter_length_bound {A} (p : A -> bool) (l : list A) :
  (length (List.filter p l) <= length l)%nat.
Proof.
  induction l as [| x l IH]; [reflexivity |].
  cbn. destruct (p x); cbn; lia.
Qed.

Lemma norm_single (s : R) : (0 < s)%R -> Np.norm [s] = s.
Proof.
  intros Hs. unfold Np.norm. cbn [map fold_right].
  replace (s * s + 0)%R with (s * s)%R by lra. apply sqrt_square. lra.
Qed.

(** X18: for a positive threshold the kept rank is between 0 and the
    number of singular values; a threshold above 1 keeps at least one value
    of a non-empty spectrum; a threshold below 1 keeps the single value of a
    spectrum with one positive value. *)
Theorem m_trunc_bounds (threshold : R) (sigma : list R) :
  (0 < threshold)%R ->
  0 <= m_trunc_of threshold sigma <= Py.len sigma
  /\ ((threshold > 1)%R -> sigma <> [] -> 1 <= m_trunc_of threshold sigma)
  /\ ((threshold < 1)%R -> forall s, (0 < s)%R -> m_trunc_of threshold [s] = 1).
Proof.
  intros Hpos. split; [| split].
  - unfold m_trunc_of. destruct (Rlt_dec threshold 1) as [Hlt | Hge].
    + rewrite count_greater_divide. unfold Py.len.
      pose proof (filter_length_bound (above threshold (Np.norm sigma)) sigma). lia.
    + rewrite int_floor by lra. unfold Py.len.
      assert (0 <= Zfloor threshold) by (apply Zfloor_lub; cbn; lra). lia.
  - intros Hgt Hne. unfold m_trunc_of.
    destruct (Rlt_dec threshold 1) as [Hlt | _]; [lra |].
    rewrite int_floor by lra.
    assert (1 <= Zfloor threshold) by (apply Zfloor_lub; cbn; lra).
    destruct sigma; [congruence |]. unfold Py.len. cbn [length]. lia.
  - intros Hlt s Hs. rewrite m_trunc_below_one by exact Hlt.
    unfold normalized_above. rewrite norm_single by exact Hs.
    cbn [List.filter]. unfold above.
    replace (s / s)%R with 1%R by (field; lra).
    destruct (Rgt_dec 1 threshold); [reflexivity | lra].
Qed.

(** ** Equality stops at the first difference *)

Section FirstDifference.

Context {E : Collaborators}.

(** X20: [__eq__] returns [False], and [__ne__] [True], at the first pair
    of tensors [np.allclose] rejects; the pairs after it are not compared. *)
Theorem eq_first_difference (self other : MatrixProduct)
  (pre post : list (Matrix * Matrix)) (m1 m2 : Matrix) :
  Py.zip (_mp self) (_mp other) = pre ++ (m1, m2) :: post ->
  Forall (fun p => allclose (fst p) (snd p) = Py.ok true) pre ->
  allclose m1 m2 = Py.ok false ->
  __eq__ self other = Py.ok false /\ __ne__ self other = Py.ok true.
Proof.
  intros Hz Hpre Hd. unfold __ne__, __eq__. rewrite Hz.
  rewrite (eq_loop_stops pre post m1 m2 Hpre Hd). split; reflexivity.
Qed.

End FirstDifference.

(** ** The further properties on the sample chains *)

Lemma move_qnidx_none_witness :
  move_qnidx 0 unlabelled = (Py.raise Py.TypeError, unlabelled).
Proof. apply move_qnidx_none. right. reflexivity. Defined.

Lemma move_qnidx_via_witness :
  (do _ <- move_qnidx 0; move_qnidx 1) labelled = move_qnidx 1 labelled.
Proof.
  apply (move_qnidx_via labelled [[0]; [1; 2]; [3]] 3 1 0 1);
    [reflexivity | reflexivity | reflexivity | lia | lia | lia].
Defined.

Lemma move_qnidx_flips_between_witness :
  exists q',
    move_qnidx 0 labelled = (Py.ok tt, with_qnidx (Some 0) (with_qn (Some q') labelled))
    /\ q' !! 0%nat = Some [0] /\ q' !! 1%nat = Some [2; 1] /\ q' !! 2%nat = Some [3].
Proof.
  destruct (move_qnidx_flips_between labelled [[0]; [1; 2]; [3]] 3 1 0)
    as (q' & Hrun & _ & Hq'); [reflexivity | reflexivity | reflexivity | | |].
  - change (0 <= 1 <= 1). lia.
  - change (0 <= 0 <= 1). lia.
  - exists q'. split; [exact Hrun |].
    split; [exact (Hq' 0%nat) |]. split; [exact (Hq' 1%nat) | exact (Hq' 2%nat)].
Defined.

Lemma sweep_short_chain_witness :
  canonicalise (E := sample) __init__ = (Py.ok tt, with_qnidx (Some (-1)) __init__)
  /\ compress (E := sample) true mps1 = (Py.ok tt, mps1).
Proof.
  split.
  - apply (sweep_short_chain (E := sample) false __init__). change (0 <= 1). lia.
  - apply (sweep_short_chain (E := sample) true mps1). change (1 <= 1). lia.
Defined.

Lemma sweeps_need_labels_witness :
  (exists e, canonicalise (E := sample) unlabelled = (Py.raise e, unlabelled))
  /\ (exists e, compress (E := sample) false unlabelled = (Py.raise e, unlabelled)).
Proof.
  apply (sweeps_need_labels (E := sample) false unlabelled);
    [reflexivity | change (2 <= 2); lia].
Defined.

Lemma zero_site_any : Np.any (arr zero_site) = false.
Proof. run. decide_reals. reflexivity. Qed.

Lemma zero_tensor_raises_witness :
  canonicalise (E := sample) hollow = (Py.raise Py.AssertionError, hollow)
  /\ compress (E := sample) true hollow = (Py.raise Py.AssertionError, hollow).
Proof.
  destruct (zero_tensor_raises (E := sample) true hollow hollow hollow [] [] 1
              zero_site zero_site eq_refl) as [Hk Hc].
  split.
  - apply Hk; [reflexivity | reflexivity | exact zero_site_any].
  - apply Hc; [reflexivity | reflexivity | reflexivity | exact zero_site_any].
Defined.

Lemma check_canonical_raises_witness :
  compress (E := unorthogonal) true two_sites = (Py.raise Py.AssertionError, two_sites).
Proof.
  apply (proj1 (check_canonical_raises (E := unorthogonal) two_sites 0 left_site eq_refl));
    [reflexivity | change (0 < 1); lia | reflexivity].
Defined.

Lemma appendable_sample : appendable (E := sample).
Proof. split; intros; eexists; reflexivity. Qed.

Lemma site3_stored : stored_as Np.float64 (arr site3).
Proof. split; [reflexivity |]. intros _. repeat constructor. Qed.

Lemma site3_several : several_entries (arr site3).
Proof. unfold several_entries. cbn. lia. Qed.

Lemma raw_list_round_trip_witness :
  Forall several_entries [arr site3; arr site3]
  /\ exists self,
    from_raw_list (E := sample) [arr site3; arr site3] __init__ = (Py.ok tt, self)
    /\ site_num self = 2
    /\ to_raw_list self = [arr site3; arr site3].
Proof.
  assert (Hsev : Forall several_entries [arr site3; arr site3])
    by (repeat constructor; apply site3_several).
  split; [exact Hsev |].
  destruct (raw_list_round_trip (E := sample) [arr site3; arr site3] __init__
              appendable_sample eq_refl Hsev) as (self & Hrun & Hn & Hd & _ & Hback).
  exists self. split; [exact Hrun |]. split; [exact Hn |].
  apply Hback. rewrite Hd. repeat constructor; apply site3_stored.
Defined.

Lemma setitem_then_getitem_witness :
  several_entries (arr left_site)
  /\ exists self' mt,
    __setitem__ (E := sample) 0 (arr left_site) two_sites = (Py.ok tt, self')
    /\ __getitem__ 0 self' = (Py.ok mt, self')
    /\ arr mt = Np.astype Np.float64 (arr left_site)
    /\ _mp self' !! 1%nat = Some right_site.
Proof.
  assert (Hsev : several_entries (arr left_site)) by (unfold several_entries; cbn; lia).
  split; [exact Hsev |].
  destruct (setitem_then_getitem (E := sample) 0 (arr left_site) two_sites sample_total)
    as (self' & mt & Hset & Hget & Harr & _ & Hrest);
    [change (0 <= 0 < 2); lia | exact Hsev |].
  exists self', mt. split; [exact Hset |]. split; [exact Hget |]. split; [exact Harr |].
  rewrite (Hrest 1%nat); [reflexivity | discriminate].
Defined.

Lemma index_out_of_range_witness :
  __getitem__ 2 two_sites = (Py.raise Py.IndexError, two_sites)
  /\ exists e, __setitem__ (E := sample) (-3) (arr left_site) two_sites
               = (Py.raise e, two_sites).
Proof.
  split.
  - apply (index_out_of_range (E := sample) 2 (arr left_site) two_sites).
    right. change (2 <= 2). lia.
  - apply (index_out_of_range (E := sample) (-3) (arr left_site) two_sites).
    left. change (-3 < -2). lia.
Defined.

Lemma conj_involution_witness :
  exists c cc,
    conj (E := sample) two_sites = Py.ok c /\ conj (E := sample) c = Py.ok cc
    /\ site_num cc = 2.
Proof.
  destruct (conj_involution (E := sample) two_sites sample_total)
    as (c & cc & Hc & Hcc & Hn & _).
  exists c, cc. split; [exact Hc |]. split; [exact Hcc | exact Hn].
Defined.

Lemma to_complex_keeps_entries_witness :
  exists new_mp,
    to_complex (E := sample) false two_sites = (Py.ok new_mp, two_sites)
    /\ is_complex new_mp = true /\ is_complex two_sites = false.
Proof.
  destruct (to_complex_keeps_entries (E := sample) false two_sites sample_total)
    as (new_mp & Hrun & Hc & _).
  exists new_mp. split; [exact Hrun |]. split; [exact Hc | reflexivity].
Defined.

Lemma two_sites_bonded : bonded (_mp two_sites).
Proof.
  cbn. split; [| split; [| exact I]].
  - exists (1%nat, 2%nat). split; [reflexivity |].
    exists (2%nat, 1%nat). split; reflexivity.
  - exists (2%nat, 1%nat). split; [reflexivity | exact I].
Qed.

Lemma build_empty_qn_labels_witness :
  exists self' q,
    build_empty_qn two_sites = (Py.ok tt, self')
    /\ qn self' = Some q /\ qnidx self' = Some 0
    /\ q !! 0%nat = Some [0] /\ q !! 1%nat = Some [0; 0] /\ q !! 2%nat = Some [0].
Proof.
  destruct (build_empty_qn_labels two_sites two_sites_bonded)
    as (self' & q & Hrun & _ & Hq0 & _ & Hq & _ & Hbonds).
  exists self', q. split; [exact Hrun |]. split; [exact Hq |]. split; [exact Hq0 |].
  destruct (Hbonds 0%nat left_site (1%nat, 2%nat) eq_refl eq_refl) as [H0 H1].
  destruct (Hbonds 1%nat right_site (2%nat, 1%nat) eq_refl eq_refl) as [_ H2].
  split; [exact H0 |]. split; [exact H1 | exact H2].
Defined.

Lemma m_trunc_bounds_witness :
  0 <= m_trunc_of (1 / 2) [4; 3]%R <= 2 /\ m_trunc_of (1 / 2) [4%R] = 1.
Proof.
  destruct (m_trunc_bounds (1 / 2) [4; 3]%R ltac:(lra)) as (Hb & _ & _).
  destruct (m_trunc_bounds (1 / 2) [4%R] ltac:(lra)) as (_ & _ & Hs).
  split; [exact Hb | apply Hs; lra].
Defined.

Lemma eq_first_difference_witness :
  __eq__ (E := sample) mps1 mps1_other = Py.ok false
  /\ __ne__ (E := sample) mps1 mps1_other = Py.ok true.
Proof.
  apply (eq_first_difference (E := sample) mps1 mps1_other [] [] site3 site3_other);
    [reflexivity | constructor | exact same_array_differs].
Defined.

(** [compress] and then [canonicalise] on [two_sites]: site 1, then site 0. *)
Lemma two_sweeps_run :
  exists s1 s2,
    compress (E := sample) false two_sites = (Py.ok tt, s1)
    /\ canonicalise (E := sample) s1 = (Py.ok tt, s2).
Proof.
  eexists. eexists. split.
  - run. decide_reals. rewrite m_trunc_loose. run. decide_reals. reflexivity.
  - run. decide_reals. reflexivity.
Qed.

Lemma sweeps_alternate_witness :
  exists s1 s2,
    compress (E := sample) false two_sites = (Py.ok tt, s1)
    /\ canonicalise (E := sample) s1 = (Py.ok tt, s2)
    /\ qnidx s1 = Some 0 /\ qnidx s2 = Some 1.
Proof.
  destruct two_sweeps_run as (s1 & s2 & H1 & H2). exists s1, s2.
  split; [exact H1 |]. split; [exact H2 |].
  destruct (sweeps_alternate (E := sample) two_sites s1 s2) as (Hq & Hc & Hflip).
  - left. reflexivity.
  - left. exists false. exact H1.
  - right. exact H2.
  - split; [| exact Hq].
    specialize (Hflip ltac:(change (2 <> 1); lia)).
    destruct Hc as [Hc | Hc]; [rewrite Hflip in Hc; discriminate |].
    unfold is_right_canon in Hc. destruct (qnidx s1) as [i |]; [| discriminate].
    apply Z.eqb_eq in Hc. now subst.
Defined.
